(** * PlantTimer: the schedule engine of the Arduino sketch, embedded in Rocq

    The sketch [PlantTimer.ino] drives relays for a grow light, a bloom light,
    a 730 nm "sleep" light, an irrigation pump and an exhaust fan from the
    wall-clock time of a real-time clock.  This file embeds the time
    arithmetic of the sketch, its alarm handlers and its serial commands,
    and states their properties.

    The target is an 8-bit AVR: [int] is 16 bits, [long] and [time_t]
    ([unsigned long]) are 32 bits, [byte] is 8 bits.  Machine integers are
    integers of [Z] with the wrap-around written out. *)

From Stdlib Require Import Ascii String.
From Stdlib Require Import ZArith List Lia Bool QArith.
Import ListNotations.

Local Open Scope Z_scope.

(** ** Machine integers of the AVR target *)

Module MachineInt.

(** [unsigned long] and [time_t]: 32 bits, arithmetic modulo 2^32. *)
Definition to_ulong (x : Z) : Z := x mod 4294967296.

(** [long]: the signed reading of the low 32 bits. *)
Definition to_long (x : Z) : Z :=
  let u := to_ulong x in
  if u <? 2147483648 then u else u - 4294967296.

(** [int]: the signed reading of the low 16 bits. *)
Definition to_int (x : Z) : Z :=
  let u := x mod 65536 in
  if u <? 32768 then u else u - 65536.

(** [byte]: 8 bits, arithmetic modulo 256. *)
Definition to_byte (x : Z) : Z := x mod 256.

End MachineInt.
Import MachineInt.

(** ** Constants and macros of the libraries the sketch includes *)

(** Modelled from the spec: the Time library's header is not among the
    sources.  Durations in minutes are "converted to seconds" by
    [SECS_PER_MIN] (the scenario computes 720 x 60 = 43200), and a day has
    [SECS_PER_DAY] seconds; both are [unsigned long] constants. *)
Definition SECS_PER_MIN : Z := 60.
Definition SECS_PER_HOUR : Z := 3600.
Definition SECS_PER_DAY : Z := SECS_PER_HOUR * 24.

(** Modelled from the spec: the Time library's macro [elapsedDays] divides a
    number of seconds by the nominal day length.  Its operand is converted to
    [unsigned long], the type of [SECS_PER_DAY]. *)
Definition elapsedDays (seconds : Z) : Z := to_ulong seconds / SECS_PER_DAY.

(** Modelled from the spec: Arduino's [abs] is not among the sources and the
    specification does not describe it.  It is taken as the Arduino core
    defines it, the macro [((x)>0?(x):-(x))]; in [getSleepLightStatus] its
    operand has type [unsigned long]. *)
Definition abs_ulong (x : Z) : Z := if 0 <? x then x else to_ulong (- x).

(** Modelled from the spec: the Time library's [tmElements_t], [breakTime]
    and [makeTime] are not among the sources.  The calendar date is kept as
    the number of whole days since the epoch; the time of day is split into
    hour, minute and second. *)
Record tmElements_t : Type := mk_tm {
  Days : Z;
  Hour : Z;
  Minute : Z;
  Second : Z
}.

Definition breakTime (t : Z) : tmElements_t :=
  {| Days := t / SECS_PER_DAY;
     Hour := (t mod SECS_PER_DAY) / SECS_PER_HOUR;
     Minute := (t mod SECS_PER_HOUR) / SECS_PER_MIN;
     Second := t mod SECS_PER_MIN |}.

Definition makeTime (tm : tmElements_t) : Z :=
  to_ulong (Days tm * SECS_PER_DAY + Hour tm * SECS_PER_HOUR
            + Minute tm * SECS_PER_MIN + Second tm).

(** Modelled from the spec: DallasTemperature's [getTempC] answers
    [DEVICE_DISCONNECTED_C] when the sensor cannot be read
    ("readTemperature(sensorId) -> celsius | unavailable"). *)
Definition DEVICE_DISCONNECTED_C : Q := (-127 # 1)%Q.

(** ** Pins and relay levels *)

Inductive level : Type := LOW | HIGH.

Definition RELAYON : level := LOW.
Definition RELAYOFF : level := HIGH.

Definition PIN_AIR_OUTLET_THROTTLE : Z := 9.
Definition PIN_PUMP_IRRIGATION : Z := 8.
Definition PIN_PUMP_MEASUREMENT : Z := 7.
Definition PIN_LIGHT_1 : Z := 6.
Definition PIN_LIGHT_2 : Z := 5.
Definition PIN_LIGHT_3 : Z := 4.
Definition PIN_LIGHT_COOLER : Z := 3.
Definition PIN_AIR_CIRCULATION : Z := 2.

(** The functions handed to [Alarm.timerOnce] and [Alarm.timerRepeat]. *)
Inductive handler : Type :=
| turnOnGrowthLight_h | turnOffGrowthLight_h
| turnOnBloomLight_h | turnOffBloomLight_h
| turnOnSleepLight_h | turnOffSleepLight_h
| turnOnIrrigation_h | turnOffIrrigation_h
| requestOneWireTemperatures_h | printOneWireDevices_h.

Inductive alarm : Type :=
| timerOnce (seconds : Z) (h : handler)
| timerRepeat (seconds : Z) (h : handler).

(** ** Configuration: the constants at the head of the sketch *)

Record config : Type := mk_config {
  growthLightScheme : list Z;
  growthLightStartTimeHour : Z;
  growthLightStartTimeMinute : Z;
  bloomLightScheme : Z * Z;
  reductionOfDaytimeInMinutes : Z;
  prolongNighttimeInMinutes : Z;
  startOfDaytimeReduction : Z;
  switchBloomLightInGrowthSchemeIfNotInBloom : bool;
  MAX_BLOOM_DAYS : Z;
  sleepLightScheme : Z * Z;
  irrigationScheme : Z * Z;
  minRoomTemp : Z;
  exhaustFanHysteresis : Z
}.

Definition GROWTH_LIGHT_PERIODS (cfg : config) : Z :=
  Z.of_nat (length (growthLightScheme cfg)).

Definition MIN_TIME : Z := 1451606400.

(** The values the sketch is shipped with. *)
Definition shipped : config :=
  {| growthLightScheme := [720; 330; 60; 330];
     growthLightStartTimeHour := 16;
     growthLightStartTimeMinute := 20;
     bloomLightScheme := (780, 690);
     reductionOfDaytimeInMinutes := 3;
     prolongNighttimeInMinutes := 0;
     startOfDaytimeReduction := 10;
     switchBloomLightInGrowthSchemeIfNotInBloom := true;
     MAX_BLOOM_DAYS := 120;
     sleepLightScheme := (10, 15);
     irrigationScheme := (40, 500);
     minRoomTemp := 23;
     exhaustFanHysteresis := 2 |}.

(** A two-element array indexed by a [bool] (false is index 0). *)
Definition at2 (a : Z * Z) (i : bool) : Z := if i then snd a else fst a.

(** An array read; [None] outside the bounds of the array. *)
Definition read (a : list Z) (i : Z) : option Z :=
  if i <? 0 then None else nth_error a (Z.to_nat i).

(** ** The global variables of the sketch *)

Record state : Type := mk_state {
  currentGrowthLightPeriod : Z;
  bloomDayCounter : Z;
  bloomLightStatus : bool;
  secondsToNextGrowthLightSwitch : Z;
  secondsToNextBloomLightSwitch : Z;
  secondsToNextSleepLightSwitch : Z;
  fanThrottleActive : bool;
  storedSettings_bloomStart : Z;
  EEPROM_bloomStart : Z;
  writes : list (Z * level);
  alarms : list alarm
}.

(** The globals as their initialisers leave them; the EEPROM holds [e]. *)
Definition boot (e : Z) : state :=
  {| currentGrowthLightPeriod := 0;
     bloomDayCounter := 0;
     bloomLightStatus := false;
     secondsToNextGrowthLightSwitch := 0;
     secondsToNextBloomLightSwitch := 0;
     secondsToNextSleepLightSwitch := 0;
     fanThrottleActive := false;
     storedSettings_bloomStart := 0;
     EEPROM_bloomStart := e;
     writes := [];
     alarms := [] |}.

Definition set_growth (p s : Z) (st : state) : state :=
  {| currentGrowthLightPeriod := p;
     bloomDayCounter := bloomDayCounter st;
     bloomLightStatus := bloomLightStatus st;
     secondsToNextGrowthLightSwitch := s;
     secondsToNextBloomLightSwitch := secondsToNextBloomLightSwitch st;
     secondsToNextSleepLightSwitch := secondsToNextSleepLightSwitch st;
     fanThrottleActive := fanThrottleActive st;
     storedSettings_bloomStart := storedSettings_bloomStart st;
     EEPROM_bloomStart := EEPROM_bloomStart st;
     writes := writes st;
     alarms := alarms st |}.

Definition set_bloom (b : bool) (c s : Z) (st : state) : state :=
  {| currentGrowthLightPeriod := currentGrowthLightPeriod st;
     bloomDayCounter := c;
     bloomLightStatus := b;
     secondsToNextGrowthLightSwitch := secondsToNextGrowthLightSwitch st;
     secondsToNextBloomLightSwitch := s;
     secondsToNextSleepLightSwitch := secondsToNextSleepLightSwitch st;
     fanThrottleActive := fanThrottleActive st;
     storedSettings_bloomStart := storedSettings_bloomStart st;
     EEPROM_bloomStart := EEPROM_bloomStart st;
     writes := writes st;
     alarms := alarms st |}.

Definition set_sleep (s : Z) (st : state) : state :=
  {| currentGrowthLightPeriod := currentGrowthLightPeriod st;
     bloomDayCounter := bloomDayCounter st;
     bloomLightStatus := bloomLightStatus st;
     secondsToNextGrowthLightSwitch := secondsToNextGrowthLightSwitch st;
     secondsToNextBloomLightSwitch := secondsToNextBloomLightSwitch st;
     secondsToNextSleepLightSwitch := s;
     fanThrottleActive := fanThrottleActive st;
     storedSettings_bloomStart := storedSettings_bloomStart st;
     EEPROM_bloomStart := EEPROM_bloomStart st;
     writes := writes st;
     alarms := alarms st |}.

Definition set_fan (f : bool) (st : state) : state :=
  {| currentGrowthLightPeriod := currentGrowthLightPeriod st;
     bloomDayCounter := bloomDayCounter st;
     bloomLightStatus := bloomLightStatus st;
     secondsToNextGrowthLightSwitch := secondsToNextGrowthLightSwitch st;
     secondsToNextBloomLightSwitch := secondsToNextBloomLightSwitch st;
     secondsToNextSleepLightSwitch := secondsToNextSleepLightSwitch st;
     fanThrottleActive := f;
     storedSettings_bloomStart := storedSettings_bloomStart st;
     EEPROM_bloomStart := EEPROM_bloomStart st;
     writes := writes st;
     alarms := alarms st |}.

Definition set_storedSettings (v : Z) (st : state) : state :=
  {| currentGrowthLightPeriod := currentGrowthLightPeriod st;
     bloomDayCounter := bloomDayCounter st;
     bloomLightStatus := bloomLightStatus st;
     secondsToNextGrowthLightSwitch := secondsToNextGrowthLightSwitch st;
     secondsToNextBloomLightSwitch := secondsToNextBloomLightSwitch st;
     secondsToNextSleepLightSwitch := secondsToNextSleepLightSwitch st;
     fanThrottleActive := fanThrottleActive st;
     storedSettings_bloomStart := v;
     EEPROM_bloomStart := EEPROM_bloomStart st;
     writes := writes st;
     alarms := alarms st |}.

(** [EEPROM.put(0, storedSettings)] and [EEPROM.get(0, storedSettings)]. *)
Definition EEPROM_put (st : state) : state :=
  {| currentGrowthLightPeriod := currentGrowthLightPeriod st;
     bloomDayCounter := bloomDayCounter st;
     bloomLightStatus := bloomLightStatus st;
     secondsToNextGrowthLightSwitch := secondsToNextGrowthLightSwitch st;
     secondsToNextBloomLightSwitch := secondsToNextBloomLightSwitch st;
     secondsToNextSleepLightSwitch := secondsToNextSleepLightSwitch st;
     fanThrottleActive := fanThrottleActive st;
     storedSettings_bloomStart := storedSettings_bloomStart st;
     EEPROM_bloomStart := storedSettings_bloomStart st;
     writes := writes st;
     alarms := alarms st |}.

Definition EEPROM_get (st : state) : state :=
  set_storedSettings (EEPROM_bloomStart st) st.

Definition digitalWrite (pin : Z) (l : level) (st : state) : state :=
  {| currentGrowthLightPeriod := currentGrowthLightPeriod st;
     bloomDayCounter := bloomDayCounter st;
     bloomLightStatus := bloomLightStatus st;
     secondsToNextGrowthLightSwitch := secondsToNextGrowthLightSwitch st;
     secondsToNextBloomLightSwitch := secondsToNextBloomLightSwitch st;
     secondsToNextSleepLightSwitch := secondsToNextSleepLightSwitch st;
     fanThrottleActive := fanThrottleActive st;
     storedSettings_bloomStart := storedSettings_bloomStart st;
     EEPROM_bloomStart := EEPROM_bloomStart st;
     writes := (pin, l) :: writes st;
     alarms := alarms st |}.

Definition Alarm (a : alarm) (st : state) : state :=
  {| currentGrowthLightPeriod := currentGrowthLightPeriod st;
     bloomDayCounter := bloomDayCounter st;
     bloomLightStatus := bloomLightStatus st;
     secondsToNextGrowthLightSwitch := secondsToNextGrowthLightSwitch st;
     secondsToNextBloomLightSwitch := secondsToNextBloomLightSwitch st;
     secondsToNextSleepLightSwitch := secondsToNextSleepLightSwitch st;
     fanThrottleActive := fanThrottleActive st;
     storedSettings_bloomStart := storedSettings_bloomStart st;
     EEPROM_bloomStart := EEPROM_bloomStart st;
     writes := writes st;
     alarms := a :: alarms st |}.

(** The level a pin was last driven to, if it was driven at all. *)
Fixpoint pin_level (pin : Z) (w : list (Z * level)) : option level :=
  match w with
  | [] => None
  | (p, l) :: w' => if p =? pin then Some l else pin_level pin w'
  end.

(** ** Results of code with loops and array reads

    A [while] loop is run with a bound on its iterations; a read outside an
    array is reported with its index instead of a value. *)

Inductive outcome (A : Type) : Type :=
| Done (a : A)
| OutOfFuel
| OutOfBounds (index : Z).

Arguments Done {A} a.
Arguments OutOfFuel {A}.
Arguments OutOfBounds {A} index.

Definition bind {A B : Type} (c : outcome A) (k : A -> outcome B) : outcome B :=
  match c with
  | Done a => k a
  | OutOfFuel => OutOfFuel
  | OutOfBounds i => OutOfBounds i
  end.

Notation "x <- c ;; k" := (bind c (fun x => k))
  (at level 61, c at next level, right associativity).

(** ** Growth light: [getGrowthLightPeriod]

    The sources hold several copies of the sketch.  They differ in the bound
    that wraps [count]: [PlantTimer.ino] compares with
    [GROWTH_LIGHT_PERIODS-1], the older copies with [GROWTH_LIGHT_PERIODS]. *)

Inductive source_variant : Type :=
| PlantTimer_ino
| part_002
| part_003_first
| part_003_second.

Definition count_limit (v : source_variant) (cfg : config) : Z :=
  match v with
  | PlantTimer_ino => GROWTH_LIGHT_PERIODS cfg - 1
  | part_002 | part_003_first | part_003_second => GROWTH_LIGHT_PERIODS cfg
  end.

(** The locals of the [while] loop, and the global it assigns on the way. *)
Record growth_locals : Type := mk_growth {
  sumOfGrowthLightPeriods : Z;
  count : Z;
  current : Z
}.

Fixpoint growth_loop (fuel : nat) (limit : Z) (scheme : list Z) (timeNow : Z)
    (l : growth_locals) : outcome growth_locals :=
  match fuel with
  | O => OutOfFuel
  | S fuel' =>
    if sumOfGrowthLightPeriods l <=? timeNow then
      match read scheme (count l) with
      | None => OutOfBounds (count l)
      | Some p =>
        let sum := to_ulong (sumOfGrowthLightPeriods l
                             + to_ulong (to_ulong p * SECS_PER_MIN)) in
        if sum <=? timeNow then
          growth_loop fuel' limit scheme timeNow
            {| sumOfGrowthLightPeriods := sum;
               count := if count l <? limit then to_byte (count l + 1) else 0;
               current := count l |}
        else
          growth_loop fuel' limit scheme timeNow
            {| sumOfGrowthLightPeriods := sum;
               count := count l;
               current := current l |}
      end
    else Done l
  end.

(** The start of today's scheme, one day earlier. *)
Definition growth_start (cfg : config) (timeNow : Z) : Z :=
  let tm := breakTime timeNow in
  let dailyGrowthLightStartTime :=
    {| Days := Days tm;
       Hour := growthLightStartTimeHour cfg;
       Minute := growthLightStartTimeMinute cfg;
       Second := 0 |} in
  to_ulong (makeTime dailyGrowthLightStartTime - SECS_PER_DAY).

Definition getGrowthLightPeriod (v : source_variant) (fuel : nat)
    (cfg : config) (timeNow : Z) (st : state) : outcome state :=
  l <- growth_loop fuel (count_limit v cfg) (growthLightScheme cfg) timeNow
         {| sumOfGrowthLightPeriods := growth_start cfg timeNow;
            count := 0;
            current := currentGrowthLightPeriod st |} ;;
  Done (set_growth (count l)
          (to_long (to_ulong (sumOfGrowthLightPeriods l - timeNow))) st).

(** ** Bloom light: [getBloomLightStatus] *)

Record bloom_locals : Type := mk_bloom {
  sumOfBloomLightPeriods : Z;
  status : bool;
  counter : Z
}.

(** One pass through the body of the [while] loop. *)
Definition bloom_body (cfg : config) (timeNow : Z) (l : bloom_locals)
    : bloom_locals :=
  let sum := to_ulong (sumOfBloomLightPeriods l
               + to_ulong (to_ulong (at2 (bloomLightScheme cfg) (status l))
                           * SECS_PER_MIN)) in
  if sum <=? timeNow then
    if negb (status l) then
      {| sumOfBloomLightPeriods :=
           if startOfDaytimeReduction cfg <=? counter l
           then to_ulong (sum - to_ulong (reductionOfDaytimeInMinutes cfg
                                          * SECS_PER_MIN))
           else sum;
         status := true;
         counter := counter l |}
    else
      {| sumOfBloomLightPeriods :=
           if startOfDaytimeReduction cfg <=? counter l
           then to_ulong (sum + to_ulong (prolongNighttimeInMinutes cfg
                                          * SECS_PER_MIN))
           else sum;
         status := false;
         counter := to_byte (counter l + 1) |}
  else
    {| sumOfBloomLightPeriods := sum;
       status := status l;
       counter := counter l |}.

Fixpoint bloom_loop (fuel : nat) (cfg : config) (timeNow : Z)
    (l : bloom_locals) : outcome bloom_locals :=
  match fuel with
  | O => OutOfFuel
  | S fuel' =>
    if sumOfBloomLightPeriods l <=? timeNow
    then bloom_loop fuel' cfg timeNow (bloom_body cfg timeNow l)
    else Done l
  end.

Definition getBloomLightStatus (fuel : nat) (cfg : config) (timeNow : Z)
    (st : state) : outcome state :=
  l <- bloom_loop fuel cfg timeNow
         {| sumOfBloomLightPeriods := storedSettings_bloomStart st;
            status := bloomLightStatus st;
            counter := bloomDayCounter st |} ;;
  Done (set_bloom (status l) (counter l)
          (to_long (to_ulong (sumOfBloomLightPeriods l - timeNow))) st).

(** ** Sleep light (730 nm): [getSleepLightStatus] *)

Definition getSleepLightStatus (cfg : config) (st : state) : bool * state :=
  let next := to_ulong (secondsToNextBloomLightSwitch st) in
  let secondsSinceLastBloomLightSwitch :=
    abs_ulong (to_ulong (next
      - to_ulong (to_ulong (at2 (bloomLightScheme cfg) (bloomLightStatus st))
                  * SECS_PER_MIN))) in
  let before := to_ulong (to_ulong (fst (sleepLightScheme cfg)) * SECS_PER_MIN) in
  let after := to_ulong (to_ulong (snd (sleepLightScheme cfg)) * SECS_PER_MIN) in
  if before <? next then
    (true, set_sleep (to_long (to_ulong (next + after))) st)
  else if after <? secondsSinceLastBloomLightSwitch then
    (true, set_sleep
             (to_long (to_ulong (secondsSinceLastBloomLightSwitch + after))) st)
  else
    (false, set_sleep (to_long (to_ulong (next - before))) st).

(** ** The alarm handlers

    [Alarm.timerOnce] takes its delay as a [time_t]: the [long] globals
    handed to it are converted to [unsigned long] at the call, and an alarm
    holds the delay as the library receives it.  [irrigationScheme] is
    [unsigned long] already. *)

Definition not_in_bloom (timeNow : Z) (st : state) : bool :=
  (storedSettings_bloomStart st =? 0)
  || (timeNow <? storedSettings_bloomStart st).

Definition turnOnIrrigation (cfg : config) (st : state) : state :=
  Alarm (timerOnce (fst (irrigationScheme cfg)) turnOffIrrigation_h)
    (digitalWrite PIN_PUMP_IRRIGATION RELAYON st).

Definition turnOffIrrigation (cfg : config) (st : state) : state :=
  Alarm (timerOnce (snd (irrigationScheme cfg)) turnOnIrrigation_h)
    (digitalWrite PIN_PUMP_IRRIGATION RELAYOFF st).

Definition turnOnGrowthLight (fuel : nat) (cfg : config) (timeNow : Z)
    (st : state) : outcome state :=
  let st := digitalWrite PIN_LIGHT_1 RELAYON st in
  let st :=
    if switchBloomLightInGrowthSchemeIfNotInBloom cfg && not_in_bloom timeNow st
    then digitalWrite PIN_LIGHT_2 LOW st else st in
  st <- getGrowthLightPeriod PlantTimer_ino fuel cfg timeNow st ;;
  Done (Alarm (timerOnce (to_ulong (secondsToNextGrowthLightSwitch st))
                 turnOffGrowthLight_h) st).

Definition turnOffGrowthLight (fuel : nat) (cfg : config) (timeNow : Z)
    (st : state) : outcome state :=
  let st := digitalWrite PIN_LIGHT_1 RELAYOFF st in
  let st :=
    if switchBloomLightInGrowthSchemeIfNotInBloom cfg && not_in_bloom timeNow st
    then digitalWrite PIN_LIGHT_2 RELAYOFF st else st in
  st <- getGrowthLightPeriod PlantTimer_ino fuel cfg timeNow st ;;
  Done (Alarm (timerOnce (to_ulong (secondsToNextGrowthLightSwitch st))
                 turnOnGrowthLight_h) st).

Definition turnOnBloomLight (fuel : nat) (cfg : config) (timeNow : Z)
    (st : state) : outcome state :=
  st <- getBloomLightStatus fuel cfg timeNow
          (digitalWrite PIN_LIGHT_2 RELAYON st) ;;
  Done (Alarm (timerOnce (to_ulong (secondsToNextBloomLightSwitch st))
                 turnOffBloomLight_h) st).

Definition turnOffBloomLight (fuel : nat) (cfg : config) (timeNow : Z)
    (st : state) : outcome state :=
  st <- getBloomLightStatus fuel cfg timeNow
          (digitalWrite PIN_LIGHT_2 RELAYOFF st) ;;
  Done (Alarm (timerOnce (to_ulong (secondsToNextBloomLightSwitch st))
                 turnOnBloomLight_h) st).

Definition turnOnSleepLight (cfg : config) (st : state) : state :=
  let st := snd (getSleepLightStatus cfg (digitalWrite PIN_LIGHT_3 RELAYON st)) in
  Alarm (timerOnce (to_ulong (secondsToNextSleepLightSwitch st))
           turnOffSleepLight_h) st.

Definition turnOffSleepLight (cfg : config) (st : state) : state :=
  let st := snd (getSleepLightStatus cfg (digitalWrite PIN_LIGHT_3 RELAYOFF st)) in
  Alarm (timerOnce (to_ulong (secondsToNextSleepLightSwitch st))
           turnOnSleepLight_h) st.

(** ** [setup]

    [timeSet] tells whether [timeStatus()] answers [timeSet]; [timeNow] is
    the value of [now()], which does not advance while [setup] runs.  What is
    printed on the serial port is left out. *)

Definition setup_pins (st : state) : state :=
  fold_left (fun st pin => digitalWrite pin HIGH st) [2; 3; 4; 5; 6; 7; 8] st.

Definition setup_growth (fuel : nat) (cfg : config) (timeNow : Z)
    (st : state) : outcome state :=
  st <- getGrowthLightPeriod PlantTimer_ino fuel cfg timeNow st ;;
  if Z.land (currentGrowthLightPeriod st) 1 =? 0
  then turnOnGrowthLight fuel cfg timeNow st
  else Done (Alarm (timerOnce (to_ulong (secondsToNextGrowthLightSwitch st))
                      turnOnGrowthLight_h) st).

Definition setup_bloom (fuel : nat) (cfg : config) (timeNow : Z)
    (st : state) : outcome state :=
  if (0 <? storedSettings_bloomStart st)
     && (0 <? to_ulong (timeNow - storedSettings_bloomStart st))
  then
    st <- getBloomLightStatus fuel cfg timeNow st ;;
    st <- (if negb (bloomLightStatus st)
           then turnOnBloomLight fuel cfg timeNow st
           else Done (Alarm (timerOnce
                               (to_ulong (secondsToNextBloomLightSwitch st))
                               turnOnBloomLight_h) st)) ;;
    let (on, st) := getSleepLightStatus cfg st in
    if on
    then Done (Alarm (timerOnce (to_ulong (secondsToNextSleepLightSwitch st))
                        turnOffSleepLight_h)
                 (digitalWrite PIN_LIGHT_3 RELAYON st))
    else Done (Alarm (timerOnce (to_ulong (secondsToNextSleepLightSwitch st))
                        turnOnSleepLight_h) st)
  else Done st.

Definition setup (fuel : nat) (cfg : config) (timeSet : bool) (timeNow : Z)
    (st : state) : outcome state :=
  let st := setup_pins st in
  if timeSet then
    st <- setup_growth fuel cfg timeNow (EEPROM_get st) ;;
    st <- setup_bloom fuel cfg timeNow st ;;
    Done (turnOnIrrigation cfg
            (Alarm (timerRepeat 180 printOneWireDevices_h)
               (Alarm (timerRepeat 5 requestOneWireTemperatures_h) st)))
  else Done st.

(** ** The exhaust fan throttle of [loop]

    [loop] reads the sensor once for each of the two tests; [reading1] and
    [reading2] are the answers of [getTempC]. *)

Definition Qgtb (a b : Q) : bool := negb (Qle_bool a b).

Definition loop_fan (cfg : config) (reading1 reading2 : Q) (st : state)
    : state :=
  if Qle_bool reading1 (inject_Z (minRoomTemp cfg))
     && negb (fanThrottleActive st)
  then set_fan true (digitalWrite PIN_AIR_OUTLET_THROTTLE RELAYON st)
  else if Qgtb reading2
            (inject_Z (to_int (minRoomTemp cfg + exhaustFanHysteresis cfg)))
          && fanThrottleActive st
  then set_fan false (digitalWrite PIN_AIR_OUTLET_THROTTLE RELAYOFF st)
  else st.

(** ** Serial command [B]: [setBloomStart] *)

Definition elapsedBloomDays (timeNow timeInput : Z) : Z :=
  let elapsedBloomSeconds := to_long (to_ulong (timeNow - timeInput)) in
  to_int (elapsedDays elapsedBloomSeconds).

Definition setBloomStart (cfg : config) (timeNow : Z) (serialTimeInput : Z)
    (st : state) : state :=
  let timeInput := to_ulong serialTimeInput in
  if MIN_TIME <=? timeInput then
    let st :=
      if elapsedBloomDays timeNow timeInput <? MAX_BLOOM_DAYS cfg
      then set_storedSettings timeInput st
      else set_storedSettings 0 st in
    EEPROM_get (EEPROM_put st)
  else if timeInput =? 0 then
    EEPROM_get (EEPROM_put (set_storedSettings 0 st))
  else st.

(** ** The far-red window as the specification words it

    Far-red is ON when the next bloom transition is the OFF edge and at most
    [preMinutes] away, or when the last transition was the OFF edge at most
    [postMinutes] ago.  [bloomOn] tells whether the bloom light is lit, so
    that its next transition is the OFF edge; after the OFF edge the time
    since it is the off-period less the time to the next transition. *)
Definition farRedWindow_policy (cfg : config) (bloomOn : bool)
    (secondsToNextTransition : Z) : bool :=
  let preMinutes := fst (sleepLightScheme cfg) in
  let postMinutes := snd (sleepLightScheme cfg) in
  let sinceOffEdge :=
    snd (bloomLightScheme cfg) * SECS_PER_MIN - secondsToNextTransition in
  (bloomOn && (secondsToNextTransition <=? preMinutes * SECS_PER_MIN))
  || (negb bloomOn && (sinceOffEdge <=? postMinutes * SECS_PER_MIN)).

(** The bloom light is lit in period 0 of [bloomLightScheme], that is while
    [bloomLightStatus] is false ("if current period is 0, turn on bloom
    light"). *)
Definition bloomOn (st : state) : bool := negb (bloomLightStatus st).

(** A configuration whose daily reduction of the daytime, applied from bloom
    day 0 on, takes back as many minutes as a whole bloom day adds: a day of
    2 minutes, a night of 1 minute, 3 minutes of reduction. *)
Definition stalled : config :=
  {| growthLightScheme := growthLightScheme shipped;
     growthLightStartTimeHour := growthLightStartTimeHour shipped;
     growthLightStartTimeMinute := growthLightStartTimeMinute shipped;
     bloomLightScheme := (2, 1);
     reductionOfDaytimeInMinutes := 3;
     prolongNighttimeInMinutes := 0;
     startOfDaytimeReduction := 0;
     switchBloomLightInGrowthSchemeIfNotInBloom :=
       switchBloomLightInGrowthSchemeIfNotInBloom shipped;
     MAX_BLOOM_DAYS := MAX_BLOOM_DAYS shipped;
     sleepLightScheme := sleepLightScheme shipped;
     irrigationScheme := irrigationScheme shipped;
     minRoomTemp := minRoomTemp shipped;
     exhaustFanHysteresis := exhaustFanHysteresis shipped |}.

(** The stored bloom start, in memory and in the EEPROM. *)
Definition store (st : state) : Z * Z :=
  (storedSettings_bloomStart st, EEPROM_bloomStart st).

(** A bloom scheme whose daily reduction (3 min) is longer than the lit
    period (2 min) and shorter than the bloom day (4 min). *)
Definition long_reduction : config :=
  {| growthLightScheme := growthLightScheme shipped;
     growthLightStartTimeHour := growthLightStartTimeHour shipped;
     growthLightStartTimeMinute := growthLightStartTimeMinute shipped;
     bloomLightScheme := (2, 2);
     reductionOfDaytimeInMinutes := 3;
     prolongNighttimeInMinutes := 0;
     startOfDaytimeReduction := 0;
     switchBloomLightInGrowthSchemeIfNotInBloom :=
       switchBloomLightInGrowthSchemeIfNotInBloom shipped;
     MAX_BLOOM_DAYS := MAX_BLOOM_DAYS shipped;
     sleepLightScheme := sleepLightScheme shipped;
     irrigationScheme := irrigationScheme shipped;
     minRoomTemp := minRoomTemp shipped;
     exhaustFanHysteresis := exhaustFanHysteresis shipped |}.

(** A configuration with bloom days of ten minutes and nights of ten
    minutes. *)
Definition short_days : config :=
  {| growthLightScheme := growthLightScheme shipped;
     growthLightStartTimeHour := growthLightStartTimeHour shipped;
     growthLightStartTimeMinute := growthLightStartTimeMinute shipped;
     bloomLightScheme := (10, 10);
     reductionOfDaytimeInMinutes := reductionOfDaytimeInMinutes shipped;
     prolongNighttimeInMinutes := prolongNighttimeInMinutes shipped;
     startOfDaytimeReduction := startOfDaytimeReduction shipped;
     switchBloomLightInGrowthSchemeIfNotInBloom :=
       switchBloomLightInGrowthSchemeIfNotInBloom shipped;
     MAX_BLOOM_DAYS := MAX_BLOOM_DAYS shipped;
     sleepLightScheme := sleepLightScheme shipped;
     irrigationScheme := irrigationScheme shipped;
     minRoomTemp := minRoomTemp shipped;
     exhaustFanHysteresis := exhaustFanHysteresis shipped |}.

(** The period of the shipped growth scheme at second [s] of the day and the
    seconds left in it: period 0 from 16:20 to 04:20, period 1 to 09:50,
    period 2 to 10:50, period 3 to 16:20. *)
Definition shipped_phase (s : Z) : Z * Z :=
  if s <? 15600 then (0, 15600 - s)
  else if s <? 35400 then (1, 35400 - s)
  else if s <? 39000 then (2, 39000 - s)
  else if s <? 58800 then (3, 58800 - s)
  else (0, 102000 - s).

(** ** Serial command [B] in the older copies of the sketch

    [setBloomStart] of part_002 and of the first sketch of part_003 has no
    branch for the value 0: below [MIN_TIME] it only prints. *)
Definition setBloomStart_older (cfg : config) (timeNow : Z)
    (serialTimeInput : Z) (st : state) : state :=
  let timeInput := to_ulong serialTimeInput in
  if MIN_TIME <=? timeInput then
    let st :=
      if elapsedBloomDays timeNow timeInput <? MAX_BLOOM_DAYS cfg
      then set_storedSettings timeInput st
      else set_storedSettings 0 st in
    EEPROM_get (EEPROM_put st)
  else if timeInput =? 0 then st
  else st.

(** The stored bloom start is the same in memory and in the EEPROM, and is 0
    or a time of the clock from [MIN_TIME] on. *)
Definition store_ok (st : state) : Prop :=
  storedSettings_bloomStart st = EEPROM_bloomStart st
  /\ (storedSettings_bloomStart st = 0
      \/ MIN_TIME <= storedSettings_bloomStart st < 4294967296).

(** ** Serial commands: [serialEvent], the command part of [loop] and
    [setSerialTime]

    Modelled from the spec: Arduino's [String] class is not among the
    sources and the specification does not describe it.  Of it the sketch
    uses [+=] with a character, [replace] of a one-character string by the
    empty string (which removes every occurrence of the character),
    [startsWith] with a one-character string, and [toInt], which is left as a
    parameter of [loop_serial]. *)

Fixpoint remove_char (c : Ascii.ascii) (s : String.string) : String.string :=
  match s with
  | String.EmptyString => String.EmptyString
  | String.String a s' =>
      if Ascii.eqb a c then remove_char c s'
      else String.String a (remove_char c s')
  end.

Definition startsWith (c : Ascii.ascii) (s : String.string) : bool :=
  match s with
  | String.EmptyString => false
  | String.String a _ => Ascii.eqb a c
  end.

(** Whether a string holds the character [c]. *)
Fixpoint has_char (c : Ascii.ascii) (s : String.string) : bool :=
  match s with
  | String.EmptyString => false
  | String.String a s' => if Ascii.eqb a c then true else has_char c s'
  end.

(** The sketch at work: its globals, the system time and the time of the
    RTC, and the serial input collected so far. *)
Record sketch : Type := mk_sketch {
  globals : state;
  clock : Z;
  RTC : Z;
  serialInputString : String.string;
  serialStringComplete : bool
}.

(** [now()] is [clock]; [setTime] and [RTC.set] write the two times. *)
Definition setSerialTime (timeInput : Z) (sk : sketch) : sketch :=
  let timeInput := to_ulong timeInput in
  if MIN_TIME <=? timeInput then
    {| globals := globals sk;
       clock := timeInput;
       RTC := timeInput;
       serialInputString := serialInputString sk;
       serialStringComplete := serialStringComplete sk |}
  else if timeInput =? 0 then sk
  else sk.

(** [serialEvent] with the characters in [received] waiting. *)
Fixpoint serialEvent (received : String.string) (sk : sketch) : sketch :=
  match received with
  | String.EmptyString => sk
  | String.String inChar rest =>
      serialEvent rest
        {| globals := globals sk;
           clock := clock sk;
           RTC := RTC sk;
           serialInputString :=
             String.append (serialInputString sk)
               (String.String inChar String.EmptyString);
           serialStringComplete :=
             if Ascii.eqb inChar ";"%char then true
             else serialStringComplete sk |}
  end.

(** The part of [loop] that handles a complete serial command. *)
Definition loop_serial (toInt : String.string -> Z) (cfg : config)
    (sk : sketch) : sketch :=
  if serialStringComplete sk then
    let input := remove_char ";"%char (serialInputString sk) in
    let sk :=
      if startsWith "T"%char input then
        setSerialTime (toInt (remove_char "T"%char input)) sk
      else if startsWith "B"%char input then
        {| globals :=
             setBloomStart cfg (clock sk)
               (toInt (remove_char "B"%char input)) (globals sk);
           clock := clock sk;
           RTC := RTC sk;
           serialInputString := serialInputString sk;
           serialStringComplete := serialStringComplete sk |}
      else sk in
    {| globals := globals sk;
       clock := clock sk;
       RTC := RTC sk;
       serialInputString := String.EmptyString;
       serialStringComplete := false |}
  else sk.

(** * Properties *)

(** ** Machine integers in range *)

Lemma to_ulong_small (x : Z) : 0 <= x < 4294967296 -> to_ulong x = x.
Proof. intros H. unfold to_ulong. apply Z.mod_small. exact H. Qed.

Lemma to_ulong_range (x : Z) : 0 <= to_ulong x < 4294967296.
Proof. unfold to_ulong. apply Z.mod_pos_bound. lia. Qed.

Lemma to_long_small (x : Z) : 0 <= x < 2147483648 -> to_long x = x.
Proof.
  intros H. unfold to_long. rewrite to_ulong_small by lia.
  destruct (Z.ltb_spec x 2147483648); lia.
Qed.

Lemma to_int_small (x : Z) : 0 <= x < 32768 -> to_int x = x.
Proof.
  intros H. unfold to_int. rewrite Z.mod_small by lia.
  destruct (Z.ltb_spec x 32768); lia.
Qed.

Lemma to_byte_small (x : Z) : 0 <= x < 256 -> to_byte x = x.
Proof. intros H. unfold to_byte. apply Z.mod_small. exact H. Qed.

Lemma to_ulong_to_long (x : Z) : to_ulong (to_long x) = to_ulong x.
Proof.
  unfold to_long. pose proof (to_ulong_range x) as Hr.
  destruct (to_ulong x <? 2147483648).
  - apply to_ulong_small. exact Hr.
  - unfold to_ulong at 1.
    replace (to_ulong x - 4294967296) with (to_ulong x + (-1) * 4294967296)
      by lia.
    rewrite Z.mod_add by lia. apply Z.mod_small. exact Hr.
Qed.

Lemma to_ulong_negative (x : Z) :
  - 4294967296 <= x < 0 -> to_ulong x = x + 4294967296.
Proof.
  intros H. unfold to_ulong.
  replace x with (x + 4294967296 + (-1) * 4294967296) at 1 by lia.
  rewrite Z.mod_add by lia. apply Z.mod_small. lia.
Qed.

Lemma to_long_to_ulong (x : Z) : to_long (to_ulong x) = to_long x.
Proof.
  unfold to_long. rewrite (to_ulong_small (to_ulong x)) by apply to_ulong_range.
  reflexivity.
Qed.

Lemma to_long_signed (x : Z) :
  - 2147483648 <= x < 2147483648 -> to_long x = x.
Proof.
  intros H. destruct (Z.lt_ge_cases x 0).
  - unfold to_long. rewrite to_ulong_negative by lia.
    destruct (Z.ltb_spec (x + 4294967296) 2147483648); lia.
  - apply to_long_small. lia.
Qed.

Lemma to_long_add_wrap (x : Z) : to_long (x + 4294967296) = to_long x.
Proof.
  unfold to_long, to_ulong.
  replace (x + 4294967296) with (x + 1 * 4294967296) by lia.
  rewrite Z.mod_add by lia. reflexivity.
Qed.

(** A [long] holds 32 bits. *)
Lemma to_long_range (x : Z) : - 2147483648 <= to_long x < 2147483648.
Proof.
  unfold to_long. pose proof (to_ulong_range x).
  destruct (Z.ltb_spec (to_ulong x) 2147483648); lia.
Qed.

(** ** The growth light walk *)

Section GrowthLoop.

Variables (limit : Z) (scheme : list Z) (timeNow : Z).
Hypothesis timeNow_range : 0 <= timeNow < 4294967296.

Lemma growth_loop_exit (fuel : nat) (l : growth_locals) :
  timeNow < sumOfGrowthLightPeriods l ->
  growth_loop (S fuel) limit scheme timeNow l = Done l.
Proof.
  intros H. cbn.
  destruct (Z.leb_spec (sumOfGrowthLightPeriods l) timeNow); [lia|reflexivity].
Qed.

Lemma growth_loop_fold (fuel : nat) (l : growth_locals) (p : Z) :
  0 <= sumOfGrowthLightPeriods l ->
  read scheme (count l) = Some p ->
  0 <= p < 32768 ->
  sumOfGrowthLightPeriods l + p * 60 <= timeNow ->
  growth_loop (S fuel) limit scheme timeNow l
  = growth_loop fuel limit scheme timeNow
      {| sumOfGrowthLightPeriods := sumOfGrowthLightPeriods l + p * 60;
         count := if count l <? limit then to_byte (count l + 1) else 0;
         current := count l |}.
Proof.
  intros Hs Hr Hp Hle. cbn. rewrite Hr. unfold SECS_PER_MIN.
  rewrite (to_ulong_small p), (to_ulong_small (p * 60)),
    (to_ulong_small (_ + _)) by lia.
  destruct (Z.leb_spec (sumOfGrowthLightPeriods l) timeNow); [|lia].
  destruct (Z.leb_spec (sumOfGrowthLightPeriods l + p * 60) timeNow); [|lia].
  reflexivity.
Qed.

Lemma growth_loop_pass (fuel : nat) (l : growth_locals) (p : Z) :
  0 <= sumOfGrowthLightPeriods l <= timeNow ->
  read scheme (count l) = Some p ->
  0 <= p < 32768 ->
  timeNow < sumOfGrowthLightPeriods l + p * 60 < 4294967296 ->
  growth_loop (S fuel) limit scheme timeNow l
  = growth_loop fuel limit scheme timeNow
      {| sumOfGrowthLightPeriods := sumOfGrowthLightPeriods l + p * 60;
         count := count l;
         current := current l |}.
Proof.
  intros Hs Hr Hp Hlt. cbn. rewrite Hr. unfold SECS_PER_MIN.
  rewrite (to_ulong_small p), (to_ulong_small (p * 60)),
    (to_ulong_small (_ + _)) by lia.
  destruct (Z.leb_spec (sumOfGrowthLightPeriods l) timeNow); [|lia].
  destruct (Z.leb_spec (sumOfGrowthLightPeriods l + p * 60) timeNow); [lia|].
  reflexivity.
Qed.

End GrowthLoop.

(** A walk that ends with some fuel ends the same way with more. *)
Lemma growth_loop_more_fuel (fuel extra : nat) (limit : Z) (scheme : list Z)
    (timeNow : Z) (l r : growth_locals) :
  growth_loop fuel limit scheme timeNow l = Done r ->
  growth_loop (fuel + extra) limit scheme timeNow l = Done r.
Proof.
  revert l. induction fuel as [|fuel IH]; intros l H; [discriminate|].
  cbn [Nat.add growth_loop] in *.
  destruct (_ <=? timeNow); [|exact H].
  destruct (read scheme (count l)); [|discriminate].
  destruct (_ <=? timeNow); apply IH; exact H.
Qed.

Ltac growth_side := cbn; first [reflexivity | lia].

Ltac growth_done :=
  cbn [bind count sumOfGrowthLightPeriods];
  match goal with
  | |- Done (set_growth ?c (to_long (to_ulong ?x)) ?st)
       = Done (set_growth ?c' ?v ?st) =>
      replace x with v by lia;
      replace c with c' by (vm_compute; reflexivity);
      reflexivity
  end.

(** The walk of the shipped scheme starts at 16:20 of the day before. *)
Lemma growth_start_shipped (d r : Z) :
  1 <= d -> 0 <= r < 86400 -> (d + 1) * 86400 < 4294967296 ->
  growth_start shipped (d * 86400 + r) = d * 86400 - 27600.
Proof.
  intros Hd Hr Hlt. unfold growth_start, makeTime, breakTime. cbn.
  change SECS_PER_DAY with 86400. change SECS_PER_HOUR with 3600.
  change SECS_PER_MIN with 60.
  rewrite Z.div_add_l, (Z.div_small r) by lia.
  rewrite (to_ulong_small ((d + 0) * 86400 + 57600 + 1200 + 0)) by lia.
  rewrite to_ulong_small by lia. lia.
Qed.

(** [PlantTimer.ino] wraps [count] at [GROWTH_LIGHT_PERIODS-1]: every read of
    [growthLightScheme] is inside the array and the index that comes out is
    one of its indices. *)
Lemma growth_loop_PlantTimer_ino_in_bounds (fuel : nat) (cfg : config)
    (timeNow : Z) (l : growth_locals) :
  0 <= count l < GROWTH_LIGHT_PERIODS cfg ->
  match growth_loop fuel (count_limit PlantTimer_ino cfg)
          (growthLightScheme cfg) timeNow l with
  | Done r => 0 <= count r < GROWTH_LIGHT_PERIODS cfg
  | OutOfFuel => True
  | OutOfBounds _ => False
  end.
Proof.
  revert l. induction fuel as [|fuel IH]; intros l Hc; cbn; [exact I|].
  destruct (sumOfGrowthLightPeriods l <=? timeNow); [|exact Hc].
  unfold read. destruct (Z.ltb_spec (count l) 0); [lia|].
  destruct (nth_error (growthLightScheme cfg) (Z.to_nat (count l))) eqn:E.
  - destruct (_ <=? timeNow); apply IH; cbn; [|exact Hc].
    destruct (Z.ltb_spec (count l) (GROWTH_LIGHT_PERIODS cfg - 1)); [|lia].
    unfold to_byte.
    pose proof (Z.mod_pos_bound (count l + 1) 256).
    pose proof (Z.mod_le (count l + 1) 256). lia.
  - apply nth_error_None in E. unfold GROWTH_LIGHT_PERIODS in Hc. lia.
Qed.

(** C10: the older copies of the sketch read past the end of
    [growthLightScheme].  They wrap [count] only once it has reached
    [GROWTH_LIGHT_PERIODS], so at 16:20:00, when the four periods walked from
    yesterday's start end exactly now, [count] is 4 and the loop goes round
    once more and reads [growthLightScheme[4]]. *)
Theorem getGrowthLightPeriod_older_copies_out_of_bounds :
  let timeNow := 1451606400 + 16 * 3600 + 20 * 60 in
  forall st : state,
    getGrowthLightPeriod part_002 6 shipped timeNow st
      = OutOfBounds (GROWTH_LIGHT_PERIODS shipped) /\
    getGrowthLightPeriod part_003_first 6 shipped timeNow st
      = OutOfBounds (GROWTH_LIGHT_PERIODS shipped) /\
    getGrowthLightPeriod part_003_second 6 shipped timeNow st
      = OutOfBounds (GROWTH_LIGHT_PERIODS shipped) /\
    getGrowthLightPeriod PlantTimer_ino 6 shipped timeNow st
      = Done (set_growth 0 43200 st).
Proof. intros timeNow st. vm_compute. repeat split. Qed.

(** The states that [getGrowthLightPeriod] returns at the three times of
    the scenario, on every day [d] of the 32-bit clock. *)
Lemma growth_scenario_shipped_states (d : Z) (fuel : nat) (st : state) :
  1 <= d -> (d + 2) * 86400 < 4294967296 -> (6 <= fuel)%nat ->
  let at_16_20 := d * 86400 + 16 * 3600 + 20 * 60 in
  let at_04_20 := (d + 1) * 86400 + 4 * 3600 + 20 * 60 in
  getGrowthLightPeriod PlantTimer_ino fuel shipped at_16_20 st
    = Done (set_growth 0 43200 st) /\
  getGrowthLightPeriod PlantTimer_ino fuel shipped (at_04_20 - 60) st
    = Done (set_growth 0 60 st) /\
  getGrowthLightPeriod PlantTimer_ino fuel shipped at_04_20 st
    = Done (set_growth 1 19800 st).
Proof.
  intros Hd Hlt Hfuel at_16_20 at_04_20.
  destruct fuel as [|[|[|[|[|[|fuel]]]]]]; try lia.
  unfold getGrowthLightPeriod.
  split; [|split].
  - replace at_16_20 with (d * 86400 + 58800) by (subst at_16_20; lia).
    rewrite growth_start_shipped by lia.
    rewrite growth_loop_fold with (p := 720) by growth_side.
    rewrite growth_loop_fold with (p := 330) by growth_side.
    rewrite growth_loop_fold with (p := 60) by growth_side.
    rewrite growth_loop_fold with (p := 330) by growth_side.
    rewrite growth_loop_pass with (p := 720) by growth_side.
    rewrite growth_loop_exit by growth_side.
    growth_done.
  - replace (at_04_20 - 60) with ((d + 1) * 86400 + 15540)
      by (subst at_04_20; lia).
    rewrite growth_start_shipped by lia.
    rewrite growth_loop_pass with (p := 720) by growth_side.
    rewrite growth_loop_exit by growth_side.
    growth_done.
  - replace at_04_20 with ((d + 1) * 86400 + 15600) by (subst at_04_20; lia).
    rewrite growth_start_shipped by lia.
    rewrite growth_loop_fold with (p := 720) by growth_side.
    rewrite growth_loop_pass with (p := 330) by growth_side.
    rewrite growth_loop_exit by growth_side.
    growth_done.
Qed.

(** C5: the scenario of the shipped growth scheme, on every day [d] of the
    32-bit clock: at 16:20:00 [getGrowthLightPeriod] returns with period 0
    and 43200 s to go, one minute before 04:20 of the next morning still
    with period 0 (and 60 s to go), at 04:20:00 with period 1 and 19800 s to
    go. *)
Theorem growth_scenario_shipped (d : Z) (fuel : nat) (st : state) :
  1 <= d -> (d + 2) * 86400 < 4294967296 -> (6 <= fuel)%nat ->
  let at_16_20 := d * 86400 + 16 * 3600 + 20 * 60 in
  let at_04_20 := (d + 1) * 86400 + 4 * 3600 + 20 * 60 in
  (exists st',
     getGrowthLightPeriod PlantTimer_ino fuel shipped at_16_20 st = Done st'
     /\ currentGrowthLightPeriod st' = 0
     /\ secondsToNextGrowthLightSwitch st' = 43200) /\
  (exists st',
     getGrowthLightPeriod PlantTimer_ino fuel shipped (at_04_20 - 60) st
     = Done st'
     /\ currentGrowthLightPeriod st' = 0
     /\ secondsToNextGrowthLightSwitch st' = 60) /\
  (exists st',
     getGrowthLightPeriod PlantTimer_ino fuel shipped at_04_20 st = Done st'
     /\ currentGrowthLightPeriod st' = 1
     /\ secondsToNextGrowthLightSwitch st' = 19800).
Proof.
  intros Hd Hlt Hfuel at_16_20 at_04_20.
  destruct (growth_scenario_shipped_states d fuel st Hd Hlt Hfuel)
    as (H1 & H2 & H3).
  fold at_16_20 at_04_20 in H1, H2, H3.
  split; [|split].
  - exists (set_growth 0 43200 st). split; [exact H1|].
    split; reflexivity.
  - exists (set_growth 0 60 st). split; [exact H2|].
    split; reflexivity.
  - exists (set_growth 1 19800 st). split; [exact H3|].
    split; reflexivity.
Qed.

(** The scenario on 2016-01-01, day 16801 of the clock. *)
Lemma growth_scenario_shipped_witness :
  (exists st',
     getGrowthLightPeriod PlantTimer_ino 8 shipped
       (16801 * 86400 + 16 * 3600 + 20 * 60) (boot 0) = Done st'
     /\ currentGrowthLightPeriod st' = 0
     /\ secondsToNextGrowthLightSwitch st' = 43200) /\
  (exists st',
     getGrowthLightPeriod PlantTimer_ino 8 shipped
       ((16801 + 1) * 86400 + 4 * 3600 + 20 * 60 - 60) (boot 0) = Done st'
     /\ currentGrowthLightPeriod st' = 0
     /\ secondsToNextGrowthLightSwitch st' = 60) /\
  (exists st',
     getGrowthLightPeriod PlantTimer_ino 8 shipped
       ((16801 + 1) * 86400 + 4 * 3600 + 20 * 60) (boot 0) = Done st'
     /\ currentGrowthLightPeriod st' = 1
     /\ secondsToNextGrowthLightSwitch st' = 19800).
Proof.
  apply (growth_scenario_shipped 16801 8 (boot 0)); lia.
Defined.

(** With strictly positive periods the walk of [PlantTimer.ino] ends inside
    the scheme, past [timeNow] by at most one period. *)
Lemma growth_loop_terminates (cfg : config) (timeNow : Z) (n : nat)
    (l : growth_locals) :
  Forall (fun p => 0 < p < 32768) (growthLightScheme cfg) ->
  0 <= timeNow -> timeNow + 32767 * 60 < 4294967296 ->
  0 <= count l < GROWTH_LIGHT_PERIODS cfg ->
  0 <= sumOfGrowthLightPeriods l <= timeNow + 32767 * 60 ->
  timeNow - sumOfGrowthLightPeriods l < 60 * Z.of_nat n ->
  exists l',
    growth_loop (S n) (count_limit PlantTimer_ino cfg) (growthLightScheme cfg)
      timeNow l = Done l'
    /\ timeNow < sumOfGrowthLightPeriods l' <= timeNow + 32767 * 60
    /\ 0 <= count l' < GROWTH_LIGHT_PERIODS cfg.
Proof.
  intros Hpos Hnow Hreach. revert l.
  induction n as [|n IH]; intros l Hc Hs Hn.
  - exists l. rewrite growth_loop_exit by lia. repeat split; lia.
  - destruct (Z.le_gt_cases (sumOfGrowthLightPeriods l) timeNow) as [Hle|Hgt].
    + destruct (read (growthLightScheme cfg) (count l)) as [p|] eqn:Hr.
      * assert (Hp : 0 < p < 32768).
        { unfold read in Hr. destruct (count l <? 0); [discriminate|].
          apply nth_error_In in Hr.
          rewrite Forall_forall in Hpos. apply Hpos. exact Hr. }
        destruct (Z.le_gt_cases (sumOfGrowthLightPeriods l + p * 60) timeNow).
        -- rewrite growth_loop_fold with (p := p) by (assumption || lia).
           apply IH; cbn [count sumOfGrowthLightPeriods]; try lia.
           unfold count_limit.
           destruct (Z.ltb_spec (count l) (GROWTH_LIGHT_PERIODS cfg - 1));
             [|lia].
           unfold to_byte.
           pose proof (Z.mod_pos_bound (count l + 1) 256).
           pose proof (Z.mod_le (count l + 1) 256). lia.
        -- rewrite growth_loop_pass with (p := p) by (assumption || lia).
           apply IH; cbn [count sumOfGrowthLightPeriods]; lia.
      * exfalso. unfold read in Hr. destruct (Z.ltb_spec (count l) 0); [lia|].
        apply nth_error_None in Hr. unfold GROWTH_LIGHT_PERIODS in Hc. lia.
    + exists l. rewrite growth_loop_exit by lia. repeat split; lia.
Qed.

(** The walk starts at or before [timeNow] once the clock is past its first
    day. *)
Lemma growth_start_range (cfg : config) (timeNow : Z) :
  0 <= growthLightStartTimeHour cfg < 24 ->
  0 <= growthLightStartTimeMinute cfg < 60 ->
  86400 <= timeNow -> timeNow + 86400 < 4294967296 ->
  timeNow - 2 * 86400 < growth_start cfg timeNow <= timeNow
  /\ 0 <= growth_start cfg timeNow.
Proof.
  intros Hh Hm Hlo Hhi. unfold growth_start, makeTime, breakTime. cbn.
  change SECS_PER_DAY with 86400. change SECS_PER_HOUR with 3600.
  change SECS_PER_MIN with 60.
  pose proof (Z.div_mod timeNow 86400 ltac:(lia)) as Hdm.
  pose proof (Z.mod_pos_bound timeNow 86400 ltac:(lia)) as Hmod.
  assert (1 <= timeNow / 86400) by (apply Z.div_le_lower_bound; lia).
  rewrite (to_ulong_small (_ + _ + _ + _)) by lia.
  rewrite to_ulong_small by lia. lia.
Qed.

(** The growth light computation of [PlantTimer.ino] ends, with a period of
    the scheme and a strictly positive time to the next switch. *)
Lemma getGrowthLightPeriod_terminates (cfg : config) (timeNow : Z)
    (st : state) :
  growthLightScheme cfg <> [] ->
  Forall (fun p => 0 < p < 32768) (growthLightScheme cfg) ->
  0 <= growthLightStartTimeHour cfg < 24 ->
  0 <= growthLightStartTimeMinute cfg < 60 ->
  86400 <= timeNow -> timeNow + 32767 * 60 < 4294967296 ->
  exists fuel st',
    getGrowthLightPeriod PlantTimer_ino fuel cfg timeNow st = Done st'
    /\ 0 < secondsToNextGrowthLightSwitch st'
    /\ 0 <= currentGrowthLightPeriod st' < GROWTH_LIGHT_PERIODS cfg.
Proof.
  intros Hne Hpos Hh Hm Hlo Hhi.
  destruct (growth_start_range cfg timeNow Hh Hm Hlo ltac:(lia)) as [Hs Hs0].
  destruct (growth_loop_terminates cfg timeNow (Z.to_nat (2 * 86400))
              {| sumOfGrowthLightPeriods := growth_start cfg timeNow;
                 count := 0; current := currentGrowthLightPeriod st |}
              Hpos ltac:(lia) Hhi) as [l' [Hl' [Hsum Hc]]].
  - cbn [count]. unfold GROWTH_LIGHT_PERIODS.
    destruct (growthLightScheme cfg); [contradiction|].
    cbn [length]. lia.
  - cbn [sumOfGrowthLightPeriods]. lia.
  - cbn [sumOfGrowthLightPeriods]. rewrite Z2Nat.id by lia. lia.
  - exists (S (Z.to_nat (2 * 86400))). eexists.
    unfold getGrowthLightPeriod. rewrite Hl'. cbn [bind].
    split; [reflexivity|].
    unfold set_growth. cbn [secondsToNextGrowthLightSwitch
                            currentGrowthLightPeriod].
    rewrite to_ulong_small, to_long_small by lia. lia.
Qed.

(** [getGrowthLightPeriod] starts from its own locals and overwrites the two
    globals it sets: a second call at the same time changes nothing. *)
Lemma getGrowthLightPeriod_twice (v : source_variant) (fuel : nat)
    (cfg : config) (timeNow : Z) (st st' : state) :
  getGrowthLightPeriod v fuel cfg timeNow st = Done st' ->
  getGrowthLightPeriod v fuel cfg timeNow st' = Done st'.
Proof.
  unfold getGrowthLightPeriod.
  assert (Hcur : forall fuel l c,
    match growth_loop fuel (count_limit v cfg) (growthLightScheme cfg) timeNow l,
          growth_loop fuel (count_limit v cfg) (growthLightScheme cfg) timeNow
            {| sumOfGrowthLightPeriods := sumOfGrowthLightPeriods l;
               count := count l; current := c |} with
    | Done r, Done r' =>
        sumOfGrowthLightPeriods r = sumOfGrowthLightPeriods r'
        /\ count r = count r'
    | OutOfFuel, OutOfFuel => True
    | OutOfBounds i, OutOfBounds j => i = j
    | _, _ => False
    end).
  { clear. induction fuel as [|fuel IH]; intros l c; cbn; [exact I|].
    destruct (sumOfGrowthLightPeriods l <=? timeNow); [|cbn; auto].
    destruct (read (growthLightScheme cfg) (count l)); [|reflexivity].
    destruct (_ <=? timeNow).
    - specialize (IH {| sumOfGrowthLightPeriods :=
                          to_ulong (sumOfGrowthLightPeriods l
                                    + to_ulong (to_ulong z * SECS_PER_MIN));
                        count := if count l <? count_limit v cfg
                                 then to_byte (count l + 1) else 0;
                        current := count l |} (count l)).
      cbn in IH. destruct (growth_loop fuel _ _ _ _); exact IH.
    - apply (IH {| sumOfGrowthLightPeriods :=
                     to_ulong (sumOfGrowthLightPeriods l
                               + to_ulong (to_ulong z * SECS_PER_MIN));
                   count := count l; current := current l |} c). }
  intros H.
  specialize (Hcur fuel
    {| sumOfGrowthLightPeriods := growth_start cfg timeNow; count := 0;
       current := currentGrowthLightPeriod st |}
    (currentGrowthLightPeriod st')).
  cbn in Hcur.
  destruct (growth_loop fuel _ _ _
              {| sumOfGrowthLightPeriods := growth_start cfg timeNow;
                 count := 0; current := currentGrowthLightPeriod st |})
    as [r| |i]; cbn in H; try discriminate.
  destruct (growth_loop fuel _ _ _ _) as [r'| |j]; try contradiction.
  destruct Hcur as [Hs Hc]. cbn. rewrite <- Hs, <- Hc.
  injection H as <-. reflexivity.
Qed.

(** ** The bloom light walk *)

Section BloomWalk.

Variables (cfg : config) (timeNow : Z).

Let on := fst (bloomLightScheme cfg).
Let off := snd (bloomLightScheme cfg).
Let reduction := reductionOfDaytimeInMinutes cfg.
Let prolong := prolongNighttimeInMinutes cfg.

Hypothesis on_range : 0 < on < 32768.
Hypothesis off_range : 0 < off < 32768.
Hypothesis timeNow_range :
  0 <= timeNow /\ timeNow + (on + off) * 60 < 4294967296.

Lemma period_seconds (b : bool) :
  to_ulong (to_ulong (at2 (bloomLightScheme cfg) b) * SECS_PER_MIN)
  = at2 (bloomLightScheme cfg) b * 60
  /\ 0 < at2 (bloomLightScheme cfg) b <= on + off.
Proof.
  unfold SECS_PER_MIN.
  assert (H : 0 < at2 (bloomLightScheme cfg) b < 32768
              /\ at2 (bloomLightScheme cfg) b <= on + off)
    by (destruct b; cbn; subst on off; lia).
  rewrite (to_ulong_small (at2 _ _)), to_ulong_small by lia. lia.
Qed.

(** The body when the period added does not end by [timeNow]. *)
Lemma bloom_body_pass (l : bloom_locals) :
  0 <= sumOfBloomLightPeriods l <= timeNow ->
  timeNow < sumOfBloomLightPeriods l
            + at2 (bloomLightScheme cfg) (status l) * 60 ->
  bloom_body cfg timeNow l
  = {| sumOfBloomLightPeriods :=
         sumOfBloomLightPeriods l
         + at2 (bloomLightScheme cfg) (status l) * 60;
       status := status l;
       counter := counter l |}.
Proof.
  intros Hs Hlt. unfold bloom_body.
  destruct (period_seconds (status l)) as [-> Hp].
  rewrite to_ulong_small by lia.
  destruct (Z.leb_spec (sumOfBloomLightPeriods l
                        + at2 (bloomLightScheme cfg) (status l) * 60)
              timeNow); [lia|reflexivity].
Qed.

(** The body at the end of a day or night before the day-length
    modifications start. *)
Lemma bloom_body_fold_plain (l : bloom_locals) :
  0 <= sumOfBloomLightPeriods l ->
  sumOfBloomLightPeriods l
    + at2 (bloomLightScheme cfg) (status l) * 60 <= timeNow ->
  counter l < startOfDaytimeReduction cfg ->
  bloom_body cfg timeNow l
  = {| sumOfBloomLightPeriods :=
         sumOfBloomLightPeriods l
         + at2 (bloomLightScheme cfg) (status l) * 60;
       status := negb (status l);
       counter := if status l then to_byte (counter l + 1) else counter l |}.
Proof.
  intros Hs Hle Hc. unfold bloom_body.
  destruct (period_seconds (status l)) as [-> Hp].
  rewrite to_ulong_small by lia.
  destruct (Z.leb_spec (sumOfBloomLightPeriods l
                        + at2 (bloomLightScheme cfg) (status l) * 60)
              timeNow); [|lia].
  destruct (Z.leb_spec (startOfDaytimeReduction cfg) (counter l)); [lia|].
  destruct (status l); reflexivity.
Qed.

(** One full bloom day, from the start of the lit period to the next. *)
Lemma bloom_loop_day (fuel : nat) (sum k : Z) :
  0 <= sum -> sum + (on + off) * 60 <= timeNow ->
  0 <= k < startOfDaytimeReduction cfg -> k < 255 ->
  bloom_loop (S (S fuel)) cfg timeNow
    {| sumOfBloomLightPeriods := sum; status := false; counter := k |}
  = bloom_loop fuel cfg timeNow
      {| sumOfBloomLightPeriods := sum + (on + off) * 60;
         status := false; counter := k + 1 |}.
Proof.
  intros Hs Hle Hk Hk'.
  cbn [bloom_loop sumOfBloomLightPeriods].
  destruct (Z.leb_spec sum timeNow); [|lia].
  rewrite bloom_body_fold_plain by (cbn; fold on; lia).
  cbn [sumOfBloomLightPeriods status counter at2 negb]. fold on.
  destruct (Z.leb_spec (sum + on * 60) timeNow); [|lia].
  rewrite bloom_body_fold_plain by (cbn; fold on off; lia).
  cbn [sumOfBloomLightPeriods status counter at2 negb]. fold off.
  rewrite to_byte_small by lia.
  f_equal. f_equal. lia.
Qed.

(** [n] full bloom days bring the walk to [timeNow]; one more period is
    added and the walk stops. *)
Lemma bloom_loop_days (n : nat) (sum k : Z) :
  0 <= sum -> sum + Z.of_nat n * ((on + off) * 60) = timeNow ->
  0 <= k -> k + Z.of_nat n <= startOfDaytimeReduction cfg ->
  startOfDaytimeReduction cfg < 256 ->
  bloom_loop (2 * n + 2) cfg timeNow
    {| sumOfBloomLightPeriods := sum; status := false; counter := k |}
  = Done {| sumOfBloomLightPeriods := timeNow + on * 60;
            status := false; counter := k + Z.of_nat n |}.
Proof.
  revert sum k. induction n as [|n IH]; intros sum k Hs Hsum Hk Hkn Hst.
  - cbn [Nat.mul Nat.add bloom_loop sumOfBloomLightPeriods].
    destruct (Z.leb_spec sum timeNow); [|lia].
    rewrite bloom_body_pass by (cbn; fold on; lia).
    cbn [sumOfBloomLightPeriods status counter at2]. fold on.
    destruct (Z.leb_spec (sum + on * 60) timeNow); [lia|].
    f_equal. f_equal; lia.
  - replace (2 * S n + 2)%nat with (S (S (2 * n + 2))) by lia.
    rewrite bloom_loop_day by lia.
    rewrite IH by lia. f_equal. f_equal. lia.
Qed.

(** The same from the start of a dark period: a night and a day. *)
Lemma bloom_loop_night_day (fuel : nat) (sum k : Z) :
  0 <= sum -> sum + (on + off) * 60 <= timeNow ->
  0 <= k -> k + 1 < startOfDaytimeReduction cfg -> k < 255 ->
  bloom_loop (S (S fuel)) cfg timeNow
    {| sumOfBloomLightPeriods := sum; status := true; counter := k |}
  = bloom_loop fuel cfg timeNow
      {| sumOfBloomLightPeriods := sum + (on + off) * 60;
         status := true; counter := k + 1 |}.
Proof.
  intros Hs Hle Hk Hk1 Hk'.
  cbn [bloom_loop sumOfBloomLightPeriods].
  destruct (Z.leb_spec sum timeNow); [|lia].
  rewrite bloom_body_fold_plain by (cbn; fold off; lia).
  cbn [sumOfBloomLightPeriods status counter at2 negb]. fold off.
  destruct (Z.leb_spec (sum + off * 60) timeNow); [|lia].
  rewrite to_byte_small by lia.
  rewrite bloom_body_fold_plain by (cbn; fold on off; lia).
  cbn [sumOfBloomLightPeriods status counter at2 negb]. fold on.
  f_equal. f_equal. lia.
Qed.

Lemma bloom_loop_days_dark (n : nat) (sum k : Z) :
  0 <= sum -> sum + Z.of_nat n * ((on + off) * 60) = timeNow ->
  0 <= k -> k + Z.of_nat n < startOfDaytimeReduction cfg ->
  startOfDaytimeReduction cfg < 256 ->
  bloom_loop (2 * n + 2) cfg timeNow
    {| sumOfBloomLightPeriods := sum; status := true; counter := k |}
  = Done {| sumOfBloomLightPeriods := timeNow + off * 60;
            status := true; counter := k + Z.of_nat n |}.
Proof.
  revert sum k. induction n as [|n IH]; intros sum k Hs Hsum Hk Hkn Hst.
  - cbn [Nat.mul Nat.add bloom_loop sumOfBloomLightPeriods].
    destruct (Z.leb_spec sum timeNow); [|lia].
    rewrite bloom_body_pass by (cbn; fold off; lia).
    cbn [sumOfBloomLightPeriods status counter at2]. fold off.
    destruct (Z.leb_spec (sum + off * 60) timeNow); [lia|].
    f_equal. f_equal; lia.
  - replace (2 * S n + 2)%nat with (S (S (2 * n + 2))) by lia.
    rewrite bloom_loop_night_day by lia.
    rewrite IH by lia. f_equal. f_equal. lia.
Qed.

(** *** Termination

    A pass that folds may take the sum back: the reduction is subtracted at
    the end of the lit period and may be longer than the lit period.  What
    rises at every fold, by half a minute at least, is the sum counted with
    the night less half a minute once the dark period has begun, as long as
    the reduction is shorter than a whole bloom day. *)

Hypothesis reduction_range : 0 <= reduction < on + off.
Hypothesis prolong_range :
  0 <= prolong < 256 /\ timeNow + (on + off + prolong) * 60 < 4294967296.

(** One pass through the body.  Either the sum is beyond [timeNow] after
    it, or the walk has moved on.  The sum stays within 32 bits; it wraps
    below 0 only from a lit period that began less than the excess of the
    reduction after the epoch, and then it is beyond [timeNow]. *)
Lemma bloom_body_progress (l : bloom_locals) :
  0 <= sumOfBloomLightPeriods l <= timeNow ->
  0 <= sumOfBloomLightPeriods (bloom_body cfg timeNow l) < 4294967296
  /\ (timeNow < sumOfBloomLightPeriods (bloom_body cfg timeNow l)
      \/ sumOfBloomLightPeriods l
         + (if status l then off * 60 - 30 else 0) + 30
         <= sumOfBloomLightPeriods (bloom_body cfg timeNow l)
            + (if status (bloom_body cfg timeNow l)
               then off * 60 - 30 else 0))
  /\ ((status l = false
       -> (reduction - on) * 60 <= sumOfBloomLightPeriods l)
      -> sumOfBloomLightPeriods (bloom_body cfg timeNow l)
         <= timeNow + (on + off + prolong) * 60
         /\ (status (bloom_body cfg timeNow l) = false
             -> (reduction - on) * 60
                <= sumOfBloomLightPeriods (bloom_body cfg timeNow l))).
Proof.
  intros Hs. unfold bloom_body.
  destruct (period_seconds (status l)) as [-> Hp].
  rewrite (to_ulong_small (_ + _)) by lia.
  unfold SECS_PER_MIN. fold reduction prolong.
  rewrite (to_ulong_small (reduction * 60)),
    (to_ulong_small (prolong * 60)) by lia.
  destruct (Z.leb_spec (sumOfBloomLightPeriods l
                        + at2 (bloomLightScheme cfg) (status l) * 60)
              timeNow) as [Hle|Hlt].
  - destruct (status l) eqn:Est; cbn [negb at2 sumOfBloomLightPeriods status]
      in *; fold on off in Hle, Hp |- *;
      destruct (startOfDaytimeReduction cfg <=? counter l).
    + rewrite to_ulong_small by lia.
      split; [lia|]. split; [right; lia|]. intros _. split; [lia|].
      intros _. lia.
    + split; [lia|]. split; [right; lia|]. intros _. split; [lia|].
      intros _. lia.
    + destruct (Z.lt_ge_cases
                  (sumOfBloomLightPeriods l + on * 60 - reduction * 60) 0)
        as [Hneg|Hnn].
      * rewrite to_ulong_negative by lia.
        split; [lia|]. split; [left; lia|]. intros Hinv.
        specialize (Hinv eq_refl). lia.
      * rewrite to_ulong_small by lia.
        split; [lia|]. split; [right; lia|]. intros _. split; [lia|].
        discriminate.
    + split; [lia|]. split; [right; lia|]. intros _. split; [lia|].
      discriminate.
  - cbn [sumOfBloomLightPeriods status].
    split; [lia|]. split; [left; lia|]. intros Hinv. split; [lia|].
    intros Hst. specialize (Hinv Hst). lia.
Qed.

(** The loop ends, with the sum beyond [timeNow]. *)
Lemma bloom_loop_terminates (n : nat) (l : bloom_locals) :
  0 <= sumOfBloomLightPeriods l < 4294967296 ->
  (sumOfBloomLightPeriods l <= timeNow ->
   timeNow + off * 60
   - (sumOfBloomLightPeriods l + (if status l then off * 60 - 30 else 0))
   < 30 * Z.of_nat n) ->
  exists l',
    bloom_loop (S n) cfg timeNow l = Done l'
    /\ timeNow < sumOfBloomLightPeriods l'
    /\ ((status l = false
         -> (reduction - on) * 60 <= sumOfBloomLightPeriods l)
        -> sumOfBloomLightPeriods l <= timeNow + (on + off + prolong) * 60
        -> sumOfBloomLightPeriods l'
           <= timeNow + (on + off + prolong) * 60).
Proof.
  revert l. induction n as [|n IH]; intros l Hs Hn.
  - exists l. cbn [bloom_loop].
    destruct (Z.leb_spec (sumOfBloomLightPeriods l) timeNow) as [Hle|Hlt].
    + specialize (Hn Hle). destruct (status l); lia.
    + split; [reflexivity|]. split; [lia|]. intros _ H. exact H.
  - cbn [bloom_loop].
    destruct (Z.leb_spec (sumOfBloomLightPeriods l) timeNow) as [Hle|Hlt].
    + destruct (bloom_body_progress l ltac:(lia)) as (Hr & Hp & Hinv).
      specialize (Hn Hle).
      destruct (IH (bloom_body cfg timeNow l) Hr) as (l' & Hl' & Hgt & Hb).
      * intros Hle'. destruct Hp as [Hp|Hp]; [lia|].
        destruct (status l), (status (bloom_body cfg timeNow l)); lia.
      * exists l'. split; [exact Hl'|]. split; [exact Hgt|].
        intros Hi _. destruct (Hinv Hi) as [Hi1 Hi2].
        apply Hb; assumption.
    + exists l. split; [reflexivity|]. split; [lia|]. intros _ H. exact H.
Qed.

End BloomWalk.

(** A walk that ends with some fuel ends the same way with more. *)
Lemma bloom_loop_more_fuel (fuel extra : nat) (cfg : config) (timeNow : Z)
    (l r : bloom_locals) :
  bloom_loop fuel cfg timeNow l = Done r ->
  bloom_loop (fuel + extra) cfg timeNow l = Done r.
Proof.
  revert l. induction fuel as [|fuel IH]; intros l H; [discriminate|].
  cbn [Nat.add bloom_loop] in *.
  destruct (_ <=? timeNow); [apply IH|]; exact H.
Qed.

(** The day counter moves only in the pass of the body that ends a dark
    period (status true) and starts a lit one (status false). *)
Lemma bloom_body_counter (cfg : config) (timeNow : Z) (l : bloom_locals) :
  counter (bloom_body cfg timeNow l)
  = if status l && negb (status (bloom_body cfg timeNow l))
    then to_byte (counter l + 1) else counter l.
Proof.
  unfold bloom_body. destruct (_ <=? timeNow); destruct (status l); reflexivity.
Qed.

(** One call from the boot state: with the day-length modification out of
    reach ([N <= startOfDaytimeReduction]), exactly [N] full bloom days
    after the bloom start [getBloomLightStatus] returns with the counter at
    [N], the light in its lit period and a whole lit period to go. *)
Lemma bloomDayCounter_counts_full_days (cfg : config) (bloomStart N : Z)
    (st : state) :
  0 < fst (bloomLightScheme cfg) < 32768 ->
  0 < snd (bloomLightScheme cfg) < 32768 ->
  0 <= N <= startOfDaytimeReduction cfg ->
  startOfDaytimeReduction cfg < 256 ->
  0 <= bloomStart ->
  bloomStart
    + (N + 1) * ((fst (bloomLightScheme cfg) + snd (bloomLightScheme cfg)) * 60)
    < 4294967296 ->
  storedSettings_bloomStart st = bloomStart ->
  bloomLightStatus st = false ->
  bloomDayCounter st = 0 ->
  exists fuel st',
    getBloomLightStatus fuel cfg
      (bloomStart
       + N * ((fst (bloomLightScheme cfg) + snd (bloomLightScheme cfg)) * 60))
      st
    = Done st'
    /\ bloomDayCounter st' = N
    /\ bloomLightStatus st' = false
    /\ secondsToNextBloomLightSwitch st' = fst (bloomLightScheme cfg) * 60.
Proof.
  intros Hon Hoff HN Hstart HS Hlt Hb Hs Hc.
  exists (2 * Z.to_nat N + 2)%nat.
  unfold getBloomLightStatus. rewrite Hb, Hs, Hc.
  rewrite bloom_loop_days; try rewrite Z2Nat.id; try lia.
  cbn [bind sumOfBloomLightPeriods status counter].
  eexists. split; [reflexivity|].
  cbn [set_bloom bloomDayCounter bloomLightStatus
       secondsToNextBloomLightSwitch].
  split; [lia|]. split; [reflexivity|].
  match goal with
  | |- to_long (to_ulong ?x) = ?v => replace x with v by lia
  end.
  rewrite to_ulong_small, to_long_small by lia. reflexivity.
Qed.

(** C6: the bloom day counter does not count full bloom days in the running
    sketch, and it moves at the ON->OFF edge.  Boot with the shipped
    configuration one minute after the bloom start, then let the bloom
    handlers run at the times their alarms were armed for.  [setup] and the
    first [turnOffBloomLight] leave the counter at 0; [turnOnBloomLight], a
    full bloom day after the bloom start, leaves it at 1; the next
    [turnOffBloomLight], less than two bloom days after the bloom start,
    walks again from the bloom start with the status and the counter it
    finds and leaves the counter at 3. *)
Theorem bloomDayCounter_moves_at_ON_OFF_edge :
  let bloomStart := 1451606400 in
  let boot_time := bloomStart + 60 in
  let first_off := boot_time + 46740 in
  let first_on := first_off + 41400 in
  let second_off := first_on + 41400 in
  exists st0 st1 st2 st3,
    setup 8 shipped true boot_time (boot bloomStart) = Done st0
    /\ bloomDayCounter st0 = 0
    /\ In (timerOnce 46740 turnOffBloomLight_h) (alarms st0)
    /\ turnOffBloomLight 8 shipped first_off st0 = Done st1
    /\ bloomDayCounter st1 = 0
    /\ In (timerOnce 41400 turnOnBloomLight_h) (alarms st1)
    /\ turnOnBloomLight 8 shipped first_on st1 = Done st2
    /\ bloomDayCounter st2 = 1
    /\ In (timerOnce 41400 turnOffBloomLight_h) (alarms st2)
    /\ turnOffBloomLight 8 shipped second_off st2 = Done st3
    /\ bloomDayCounter st3 = 3
    /\ first_on = bloomStart + (780 + 690) * 60
    /\ second_off < bloomStart + 2 * ((780 + 690) * 60).
Proof.
  cbv zeta. eexists. eexists. eexists. eexists.
  split; [vm_compute; reflexivity|].
  split; [reflexivity|].
  split; [vm_compute; auto 10|].
  split; [vm_compute; reflexivity|].
  split; [reflexivity|].
  split; [vm_compute; auto 10|].
  split; [vm_compute; reflexivity|].
  split; [reflexivity|].
  split; [vm_compute; auto 10|].
  split; [vm_compute; reflexivity|].
  split; [reflexivity|].
  split; reflexivity.
Qed.

(** The count is the same when the walk starts in the dark period, as
    long as the day-length modification stays strictly out of reach. *)
Lemma bloomDayCounter_counts_full_days_dark (cfg : config) (bloomStart N : Z)
    (st : state) :
  0 < fst (bloomLightScheme cfg) < 32768 ->
  0 < snd (bloomLightScheme cfg) < 32768 ->
  0 <= N < startOfDaytimeReduction cfg ->
  startOfDaytimeReduction cfg < 256 ->
  0 <= bloomStart ->
  bloomStart
    + (N + 1) * ((fst (bloomLightScheme cfg) + snd (bloomLightScheme cfg)) * 60)
    < 4294967296 ->
  storedSettings_bloomStart st = bloomStart ->
  bloomLightStatus st = true ->
  bloomDayCounter st = 0 ->
  exists fuel,
    getBloomLightStatus fuel cfg
      (bloomStart
       + N * ((fst (bloomLightScheme cfg) + snd (bloomLightScheme cfg)) * 60))
      st
    = Done (set_bloom true N (snd (bloomLightScheme cfg) * 60) st).
Proof.
  intros Hon Hoff HN Hstart HS Hlt Hb Hs Hc.
  exists (2 * Z.to_nat N + 2)%nat.
  unfold getBloomLightStatus. rewrite Hb, Hs, Hc.
  rewrite bloom_loop_days_dark; try rewrite Z2Nat.id; try lia.
  cbn [bind sumOfBloomLightPeriods status counter].
  f_equal. f_equal.
  match goal with
  | |- to_long (to_ulong ?x) = ?v => replace x with v by lia
  end.
  rewrite to_ulong_small, to_long_small by lia. reflexivity.
Qed.

(** With [stalled] the walk comes back to the same sum after every bloom
    day: the lit period ends by the query time and the reduction is taken
    off; then the dark period ends and the day is counted. *)
Lemma bloom_body_stalled_lit (c : Z) :
  0 <= c ->
  bloom_body stalled (1451606400 + 120)
    {| sumOfBloomLightPeriods := 1451606400; status := false; counter := c |}
  = {| sumOfBloomLightPeriods := 1451606340; status := true; counter := c |}.
Proof.
  intros Hc. unfold bloom_body.
  cbn [status sumOfBloomLightPeriods counter].
  change (to_ulong (1451606400
            + to_ulong (to_ulong (at2 (bloomLightScheme stalled) false)
                        * SECS_PER_MIN))) with 1451606520.
  change (1451606520 <=? 1451606400 + 120) with true.
  change (negb false) with true. cbv iota.
  change (startOfDaytimeReduction stalled) with 0.
  destruct (Z.leb_spec 0 c); [|lia].
  reflexivity.
Qed.

Lemma bloom_body_stalled_dark (c : Z) :
  0 <= c ->
  bloom_body stalled (1451606400 + 120)
    {| sumOfBloomLightPeriods := 1451606340; status := true; counter := c |}
  = {| sumOfBloomLightPeriods := 1451606400; status := false;
       counter := to_byte (c + 1) |}.
Proof.
  intros Hc. unfold bloom_body.
  cbn [status sumOfBloomLightPeriods counter].
  change (to_ulong (1451606340
            + to_ulong (to_ulong (at2 (bloomLightScheme stalled) true)
                        * SECS_PER_MIN))) with 1451606400.
  change (1451606400 <=? 1451606400 + 120) with true.
  change (negb true) with false. cbv iota.
  change (startOfDaytimeReduction stalled) with 0.
  destruct (Z.leb_spec 0 c); [|lia].
  reflexivity.
Qed.

Lemma bloom_loop_stalled (fuel : nat) (l : bloom_locals) :
  0 <= counter l ->
  (sumOfBloomLightPeriods l = 1451606400 /\ status l = false)
  \/ (sumOfBloomLightPeriods l = 1451606340 /\ status l = true) ->
  bloom_loop fuel stalled (1451606400 + 120) l = OutOfFuel.
Proof.
  revert l. induction fuel as [|fuel IH]; intros [s b c] Hc H; [reflexivity|].
  cbn [counter sumOfBloomLightPeriods status] in Hc, H.
  cbn [bloom_loop sumOfBloomLightPeriods].
  destruct H as [[-> ->]|[-> ->]].
  - change (1451606400 <=? 1451606400 + 120) with true. cbv iota.
    rewrite bloom_body_stalled_lit by exact Hc.
    apply IH; [exact Hc|right; split; reflexivity].
  - change (1451606340 <=? 1451606400 + 120) with true. cbv iota.
    rewrite bloom_body_stalled_dark by exact Hc.
    apply IH; [|left; split; reflexivity].
    cbn [counter]. unfold to_byte.
    pose proof (Z.mod_pos_bound (c + 1) 256). lia.
Qed.




(** The bloom light computation ends with a strictly positive time to the
    next switch also for a bloom start that lies ahead. *)
Lemma getBloomLightStatus_future (fuel : nat) (cfg : config) (timeNow : Z)
    (st : state) :
  0 <= timeNow < storedSettings_bloomStart st ->
  storedSettings_bloomStart st - timeNow < 2147483648 ->
  exists st',
    getBloomLightStatus (S fuel) cfg timeNow st = Done st'
    /\ 0 < secondsToNextBloomLightSwitch st'.
Proof.
  intros Hlt Hfar. eexists. unfold getBloomLightStatus. cbn.
  destruct (Z.leb_spec (storedSettings_bloomStart st) timeNow); [lia|].
  split; [reflexivity|]. cbn.
  rewrite to_ulong_small, to_long_small by lia. lia.
Qed.

(** C3: [getBloomLightStatus] is not idempotent.  It walks again from the
    stored bloom start but continues from the globals [bloomLightStatus] and
    [bloomDayCounter] left by the call before.  One bloom day (780 + 690
    minutes) after the bloom start the first call from the boot state counts
    one day, a second call at the same time counts two. *)
Theorem getBloomLightStatus_twice_differs :
  let timeNow := 1451606400 + (780 + 690) * 60 in
  let st0 := EEPROM_get (boot 1451606400) in
  exists st1 st2,
    getBloomLightStatus 10 shipped timeNow st0 = Done st1 /\
    getBloomLightStatus 10 shipped timeNow st1 = Done st2 /\
    bloomDayCounter st1 = 1 /\
    bloomDayCounter st2 = 2 /\
    st1 <> st2.
Proof.
  do 2 eexists.
  split; [vm_compute; reflexivity|].
  split; [vm_compute; reflexivity|].
  split; [reflexivity|]. split; [reflexivity|].
  intros H. apply (f_equal bloomDayCounter) in H. discriminate H.
Qed.

(** ** The sleep light *)

(** Whenever the next bloom transition is more than [preMinutes] away, the
    first test of [getSleepLightStatus] succeeds and the sleep light is
    reported ON, whatever the bloom light does. *)
Lemma getSleepLightStatus_on_when_far (cfg : config) (st : state) :
  0 <= fst (sleepLightScheme cfg) < 32768 ->
  fst (sleepLightScheme cfg) * SECS_PER_MIN < secondsToNextBloomLightSwitch st
    < 2147483648 ->
  fst (getSleepLightStatus cfg st) = true.
Proof.
  intros Hpre Hnext. unfold getSleepLightStatus, SECS_PER_MIN in *.
  rewrite (to_ulong_small (secondsToNextBloomLightSwitch st)) by lia.
  rewrite (to_ulong_small (fst (sleepLightScheme cfg))) by lia.
  rewrite (to_ulong_small (fst (sleepLightScheme cfg) * 60)) by lia.
  destruct (Z.ltb_spec (fst (sleepLightScheme cfg) * 60)
              (secondsToNextBloomLightSwitch st)); [reflexivity | lia].
Qed.

(** C2: [getSleepLightStatus] does not implement the window.  With the
    shipped values and the bloom light 40000 s before its next transition,
    the policy says OFF (the OFF edge is neither within 10 minutes ahead nor
    within 15 minutes behind, whichever way the bloom light is), but the
    function answers ON: its first test is [pre < secondsToNext], the
    reverse of "within [preMinutes]". *)
Theorem getSleepLightStatus_on_outside_window :
  let lit := set_bloom false 0 40000 (boot 0) in
  let dark := set_bloom true 0 40000 (boot 0) in
  bloomOn lit = true /\
  farRedWindow_policy shipped (bloomOn lit) 40000 = false /\
  fst (getSleepLightStatus shipped lit) = true /\
  bloomOn dark = false /\
  farRedWindow_policy shipped (bloomOn dark) 40000 = false /\
  fst (getSleepLightStatus shipped dark) = true.
Proof. vm_compute. repeat split. Qed.

(** C4: the sleep light computation yields a negative delay.  With the
    shipped values, 300 s before the bloom light goes off on its first day
    (the walk from the boot state leaves 300 s to the next bloom switch),
    neither is 600 < 300 nor is the time "since the last switch" small: it
    is computed as an [unsigned long] difference that wraps, on which [abs]
    does nothing.  The second branch adds 900 s to it and stores the sum in
    the [long] [secondsToNextSleepLightSwitch], which reads -45600. *)
Theorem getSleepLightStatus_negative_delay :
  let timeNow := 1451606400 + 780 * 60 - 300 in
  exists st,
    getBloomLightStatus 10 shipped timeNow (EEPROM_get (boot 1451606400))
      = Done st /\
    secondsToNextBloomLightSwitch st = 300 /\
    bloomLightStatus st = false /\
    getSleepLightStatus shipped st = (true, set_sleep (-45600) st) /\
    secondsToNextSleepLightSwitch (snd (getSleepLightStatus shipped st)) <= 0.
Proof.
  eexists. split; [vm_compute; reflexivity|].
  split; [reflexivity|]. split; [reflexivity|].
  split; [vm_compute; reflexivity|].
  vm_compute. discriminate.
Qed.

(** The delay is not strictly positive either where [abs] plays no part.
    With [short_days], one bloom day after the bloom start the bloom light
    has a whole lit period of 600 s to go; none of the two tests succeeds and
    the sleep light is reported OFF with 0 s to its next switch. *)
Lemma getSleepLightStatus_zero_delay :
  exists st,
    getBloomLightStatus 10 short_days (1451606400 + (10 + 10) * 60)
      (EEPROM_get (boot 1451606400)) = Done st /\
    secondsToNextBloomLightSwitch st = 600 /\
    bloomLightStatus st = false /\
    getSleepLightStatus short_days st = (false, set_sleep 0 st).
Proof.
  eexists. split; [vm_compute; reflexivity|].
  split; [reflexivity|]. split; [reflexivity|].
  vm_compute. reflexivity.
Qed.

(** ** Boot with an expired bloom start *)

Lemma getGrowthLightPeriod_store (v : source_variant) (fuel : nat)
    (cfg : config) (timeNow : Z) (st st' : state) :
  getGrowthLightPeriod v fuel cfg timeNow st = Done st' -> store st' = store st.
Proof.
  unfold getGrowthLightPeriod.
  destruct (growth_loop _ _ _ _ _); cbn [bind]; intros H; try discriminate.
  injection H as <-. reflexivity.
Qed.

Lemma getBloomLightStatus_store (fuel : nat) (cfg : config) (timeNow : Z)
    (st st' : state) :
  getBloomLightStatus fuel cfg timeNow st = Done st' -> store st' = store st.
Proof.
  unfold getBloomLightStatus.
  destruct (bloom_loop _ _ _ _); cbn [bind]; intros H; try discriminate.
  injection H as <-. reflexivity.
Qed.

Lemma getSleepLightStatus_store (cfg : config) (st : state) :
  store (snd (getSleepLightStatus cfg st)) = store st.
Proof.
  unfold getSleepLightStatus.
  destruct (_ <? _); [reflexivity|]. destruct (_ <? _); reflexivity.
Qed.

Lemma turnOnGrowthLight_store (fuel : nat) (cfg : config) (timeNow : Z)
    (st st' : state) :
  turnOnGrowthLight fuel cfg timeNow st = Done st' -> store st' = store st.
Proof.
  unfold turnOnGrowthLight.
  destruct (getGrowthLightPeriod _ _ _ _ _) as [s| |] eqn:E; cbn [bind];
    intros H; try discriminate.
  injection H as <-. apply getGrowthLightPeriod_store in E.
  change (store (Alarm (timerOnce (to_ulong (secondsToNextGrowthLightSwitch s))
                          turnOffGrowthLight_h) s)) with (store s).
  rewrite E. destruct (_ && _); reflexivity.
Qed.

Lemma turnOnBloomLight_store (fuel : nat) (cfg : config) (timeNow : Z)
    (st st' : state) :
  turnOnBloomLight fuel cfg timeNow st = Done st' -> store st' = store st.
Proof.
  unfold turnOnBloomLight.
  destruct (getBloomLightStatus _ _ _ _) as [s| |] eqn:E; cbn [bind];
    intros H; try discriminate.
  injection H as <-. apply getBloomLightStatus_store in E.
  change (store (Alarm (timerOnce (to_ulong (secondsToNextBloomLightSwitch s))
                          turnOffBloomLight_h) s)) with (store s).
  rewrite E. reflexivity.
Qed.

Lemma setup_growth_store (fuel : nat) (cfg : config) (timeNow : Z)
    (st st' : state) :
  setup_growth fuel cfg timeNow st = Done st' -> store st' = store st.
Proof.
  unfold setup_growth.
  destruct (getGrowthLightPeriod _ _ _ _ _) as [s| |] eqn:E; cbn [bind];
    intros H; try discriminate.
  apply getGrowthLightPeriod_store in E.
  destruct (_ =? 0).
  - apply turnOnGrowthLight_store in H. congruence.
  - injection H as <-. rewrite <- E. reflexivity.
Qed.

Lemma setup_bloom_store (fuel : nat) (cfg : config) (timeNow : Z)
    (st st' : state) :
  setup_bloom fuel cfg timeNow st = Done st' -> store st' = store st.
Proof.
  unfold setup_bloom. destruct (_ && _).
  - destruct (getBloomLightStatus _ _ _ _) as [s| |] eqn:E; cbn [bind];
      intros H; try discriminate.
    apply getBloomLightStatus_store in E.
    assert (Hs : forall s', (if negb (bloomLightStatus s)
                             then turnOnBloomLight fuel cfg timeNow s
                             else Done (Alarm (timerOnce
                                     (to_ulong
                                        (secondsToNextBloomLightSwitch s))
                                     turnOnBloomLight_h) s)) = Done s'
                            -> store s' = store s).
    { intros s'. destruct (negb _).
      - apply turnOnBloomLight_store.
      - intros H'. injection H' as <-. reflexivity. }
    destruct (if negb (bloomLightStatus s) then _ else _) as [s'| |];
      cbn [bind] in H; try discriminate.
    specialize (Hs s' eq_refl).
    pose proof (getSleepLightStatus_store cfg s') as Hf.
    destruct (getSleepLightStatus cfg s') as [on s''].
    cbn [snd] in Hf.
    destruct on; injection H as <-;
      [change (store (Alarm (timerOnce
                               (to_ulong (secondsToNextSleepLightSwitch s''))
                               turnOffSleepLight_h)
                        (digitalWrite PIN_LIGHT_3 RELAYON s'')))
         with (store s'')
      |change (store (Alarm (timerOnce
                               (to_ulong (secondsToNextSleepLightSwitch s''))
                               turnOnSleepLight_h) s''))
         with (store s'')];
      congruence.
  - intros H. injection H as <-. reflexivity.
Qed.

(** [setup] never writes the EEPROM and never clears the bloom start it
    loaded from it, whatever the clock says. *)
Lemma setup_store (fuel : nat) (cfg : config) (timeNow : Z) (st st' : state) :
  setup fuel cfg true timeNow st = Done st' ->
  store st' = (EEPROM_bloomStart st, EEPROM_bloomStart st).
Proof.
  unfold setup.
  destruct (setup_growth _ _ _ _) as [s| |] eqn:Eg; cbn [bind];
    try discriminate.
  destruct (setup_bloom _ _ _ _) as [s'| |] eqn:Eb; cbn [bind];
    intros H; try discriminate.
  injection H as <-.
  apply setup_growth_store in Eg. apply setup_bloom_store in Eb.
  change (store (turnOnIrrigation cfg
                   (Alarm (timerRepeat 180 printOneWireDevices_h)
                      (Alarm (timerRepeat 5 requestOneWireTemperatures_h) s'))))
    with (store s').
  rewrite Eb, Eg. reflexivity.
Qed.

(** C1: the elapsed-day cutoff is not applied at boot.  On 2017-07-14
    (1500000000) with a stored bloom start of 2016-01-01 (1451606400), 560
    days earlier and so beyond [MAX_BLOOM_DAYS] = 120, [setup] walks the
    bloom scheme, arms the bloom and sleep light timers and leaves the stored
    bloom start as it was, in memory and in the EEPROM. *)
Theorem setup_keeps_expired_bloomStart :
  elapsedBloomDays 1500000000 1451606400 = 560 /\
  MAX_BLOOM_DAYS shipped <= elapsedBloomDays 1500000000 1451606400 /\
  exists st,
    setup 5000 shipped true 1500000000 (boot 1451606400) = Done st /\
    storedSettings_bloomStart st = 1451606400 /\
    EEPROM_bloomStart st = 1451606400 /\
    In (timerOnce 22800 turnOnBloomLight_h) (alarms st) /\
    In (timerOnce 23700 turnOffSleepLight_h) (alarms st).
Proof.
  split; [vm_compute; reflexivity|].
  split; [vm_compute; discriminate|].
  eexists. split; [vm_compute; reflexivity|].
  cbn. repeat split; auto 10.
Qed.

(** ** Serial command [B] *)

(** For a bloom start in the past the day count of [setBloomStart] is the
    elapsed time in whole days, as long as it fits the [int] it is stored
    in. *)
Lemma elapsedBloomDays_past (timeNow timeInput : Z) :
  0 <= timeInput <= timeNow ->
  timeNow - timeInput < 32768 * SECS_PER_DAY ->
  elapsedBloomDays timeNow timeInput = (timeNow - timeInput) / SECS_PER_DAY.
Proof.
  change SECS_PER_DAY with 86400. intros Hle Hlt.
  unfold elapsedBloomDays, elapsedDays. change SECS_PER_DAY with 86400.
  rewrite to_ulong_to_long.
  rewrite !(to_ulong_small (timeNow - timeInput)) by lia.
  apply to_int_small. split.
  - apply Z.div_pos; lia.
  - apply Z.div_lt_upper_bound; lia.
Qed.



(** ** Exhaust fan throttle *)

(** C9, as stated, fails: with the fan not throttled, a failed reading
    (DallasTemperature answers -127 degrees) passes the test
    [reading <= minRoomTemp] and [loop] throttles the fan. *)
Lemma loop_fan_failed_reading_throttles :
  let st := boot 0 in
  let st' := loop_fan shipped DEVICE_DISCONNECTED_C DEVICE_DISCONNECTED_C st in
  fanThrottleActive st = false
  /\ fanThrottleActive st' = true
  /\ fanThrottleActive st' <> fanThrottleActive st
  /\ writes st = []
  /\ writes st' = [(PIN_AIR_OUTLET_THROTTLE, RELAYON)].
Proof. vm_compute. repeat split. discriminate. Qed.

(** C9, amended: a failed reading is handled as the temperature -127
    degrees.  While the fan is throttled it changes neither
    [fanThrottleActive] nor the fan output; while the fan is not throttled it
    throttles the fan, for every [minRoomTemp] of -127 or more. *)
Theorem loop_fan_failed_reading (cfg : config) (st : state) :
  -127 <= minRoomTemp cfg ->
  0 <= exhaustFanHysteresis cfg ->
  minRoomTemp cfg + exhaustFanHysteresis cfg < 32768 ->
  loop_fan cfg DEVICE_DISCONNECTED_C DEVICE_DISCONNECTED_C st
  = if fanThrottleActive st then st
    else set_fan true (digitalWrite PIN_AIR_OUTLET_THROTTLE RELAYON st).
Proof.
  intros Hmin Hhyst Hsum. unfold loop_fan, Qgtb.
  assert (Hle : forall z, -127 <= z ->
            Qle_bool DEVICE_DISCONNECTED_C (inject_Z z) = true).
  { intros z Hz. apply Qle_bool_iff. unfold Qle, DEVICE_DISCONNECTED_C.
    cbn. lia. }
  rewrite Hle by exact Hmin.
  rewrite Hle.
  - destruct (fanThrottleActive st); reflexivity.
  - unfold to_int.
    pose proof (Z.mod_pos_bound (minRoomTemp cfg + exhaustFanHysteresis cfg)
                  65536).
    destruct (Z.ltb_spec
                ((minRoomTemp cfg + exhaustFanHysteresis cfg) mod 65536) 32768).
    + lia.
    + destruct (Z.le_gt_cases 0 (minRoomTemp cfg + exhaustFanHysteresis cfg)).
      * rewrite Z.mod_small in * by lia. lia.
      * replace (minRoomTemp cfg + exhaustFanHysteresis cfg)
          with ((minRoomTemp cfg + exhaustFanHysteresis cfg + 65536)
                + (-1) * 65536) by lia.
        rewrite Z.mod_add by lia. rewrite Z.mod_small by lia. lia.
Qed.

(** The shipped thresholds with the fan throttled. *)
Lemma loop_fan_failed_reading_witness :
  loop_fan shipped DEVICE_DISCONNECTED_C DEVICE_DISCONNECTED_C
    (set_fan true (boot 0))
  = set_fan true (boot 0).
Proof.
  apply (loop_fan_failed_reading shipped (set_fan true (boot 0)));
    vm_compute; first [reflexivity | discriminate].
Defined.

(** ** The sleep light inside a bloom period *)

(** X12. At every moment strictly inside a bloom period (more than 0 s and less
    than the whole period to its end) [getSleepLightStatus] reports the sleep
    light ON, for every configuration.  With more than the lead time to go
    it asks for the next switch after the time to the bloom switch plus the
    after-glow; otherwise the delay it stores is that sum less the whole
    period, which is negative for periods longer than lead and after-glow
    together. *)
Theorem getSleepLightStatus_inside_period (cfg : config) (st : state) :
  0 <= fst (sleepLightScheme cfg) < 32768 ->
  0 <= snd (sleepLightScheme cfg) < 32768 ->
  0 < at2 (bloomLightScheme cfg) (bloomLightStatus st) < 32768 ->
  0 < secondsToNextBloomLightSwitch st
    < at2 (bloomLightScheme cfg) (bloomLightStatus st) * 60 ->
  getSleepLightStatus cfg st
  = (true,
     set_sleep
       (if fst (sleepLightScheme cfg) * 60 <? secondsToNextBloomLightSwitch st
        then secondsToNextBloomLightSwitch st + snd (sleepLightScheme cfg) * 60
        else secondsToNextBloomLightSwitch st + snd (sleepLightScheme cfg) * 60
             - at2 (bloomLightScheme cfg) (bloomLightStatus st) * 60)
       st).
Proof.
  intros Hpre Hpost Hp Hs. unfold getSleepLightStatus, SECS_PER_MIN.
  set (s := secondsToNextBloomLightSwitch st) in *.
  set (P := at2 (bloomLightScheme cfg) (bloomLightStatus st)) in *.
  set (pre := fst (sleepLightScheme cfg)) in *.
  set (post := snd (sleepLightScheme cfg)) in *.
  rewrite (to_ulong_small s), (to_ulong_small P), (to_ulong_small pre),
    (to_ulong_small post), (to_ulong_small (P * 60)),
    (to_ulong_small (pre * 60)), (to_ulong_small (post * 60)) by lia.
  destruct (Z.ltb_spec (pre * 60) s) as [Hfar|Hnear].
  - rewrite to_ulong_small, to_long_small by lia. reflexivity.
  - rewrite (to_ulong_negative (s - P * 60)) by lia.
    unfold abs_ulong.
    destruct (Z.ltb_spec 0 (s - P * 60 + 4294967296)); [|lia].
    destruct (Z.ltb_spec (post * 60) (s - P * 60 + 4294967296)); [|lia].
    rewrite to_long_to_ulong.
    f_equal. f_equal.
    replace (s - P * 60 + 4294967296 + post * 60)
      with (s + post * 60 - P * 60 + 4294967296) by lia.
    rewrite to_long_add_wrap. apply to_long_signed. lia.
Qed.

(** The shipped scheme five minutes before the bloom light goes off. *)
Lemma getSleepLightStatus_inside_period_witness :
  getSleepLightStatus shipped (set_bloom false 0 300 (boot 0))
  = (true, set_sleep (-45600) (set_bloom false 0 300 (boot 0))).
Proof.
  apply (getSleepLightStatus_inside_period shipped
           (set_bloom false 0 300 (boot 0)));
    cbn; lia.
Defined.

(** ** More on the serial command [B] *)

(** X17. With the clock at or after [MIN_TIME], a bloom start ahead of the
    clock is stored, up to about 46 years ahead: the elapsed seconds wrap to
    an [unsigned long] whose day count does not fit the [int] it is assigned
    to and reads negative.  Further ahead the day count fits, is large, and
    the bloom start is cleared. *)
Theorem setBloomStart_future (cfg : config) (timeNow timeInput : Z)
    (st : state) :
  0 <= MAX_BLOOM_DAYS cfg * SECS_PER_DAY <= MIN_TIME ->
  MIN_TIME <= timeNow < timeInput -> timeInput < 4294967296 ->
  storedSettings_bloomStart (setBloomStart cfg timeNow timeInput st)
  = (if timeInput - timeNow <=? 4294967296 - 32768 * 86400
     then timeInput else 0)
  /\ EEPROM_bloomStart (setBloomStart cfg timeNow timeInput st)
     = storedSettings_bloomStart (setBloomStart cfg timeNow timeInput st).
Proof.
  unfold MIN_TIME. change SECS_PER_DAY with 86400. intros Hmax Hnow Hin.
  assert (Hd : elapsedBloomDays timeNow timeInput
               = if timeInput - timeNow <=? 4294967296 - 32768 * 86400
                 then (timeNow - timeInput + 4294967296) / 86400 - 65536
                 else (timeNow - timeInput + 4294967296) / 86400).
  { unfold elapsedBloomDays, elapsedDays. change SECS_PER_DAY with 86400.
    rewrite to_ulong_to_long.
    rewrite (to_ulong_small (to_ulong _)) by apply to_ulong_range.
    rewrite to_ulong_negative by lia.
    set (u := timeNow - timeInput + 4294967296).
    assert (Hu : 0 <= u < 4294967296) by (subst u; lia).
    assert (Hq : 0 <= u / 86400 < 49711).
    { split; [apply Z.div_pos; lia|].
      apply Z.div_lt_upper_bound; lia. }
    unfold to_int. rewrite Z.mod_small by lia.
    destruct (Z.leb_spec (timeInput - timeNow) (4294967296 - 32768 * 86400)).
    - assert (32768 <= u / 86400)
        by (apply Z.div_le_lower_bound; subst u; lia).
      destruct (Z.ltb_spec (u / 86400) 32768); [lia|reflexivity].
    - assert (u / 86400 < 32768)
        by (apply Z.div_lt_upper_bound; subst u; lia).
      destruct (Z.ltb_spec (u / 86400) 32768); [reflexivity|lia]. }
  unfold setBloomStart. rewrite to_ulong_small by lia. unfold MIN_TIME.
  destruct (Z.leb_spec 1451606400 timeInput); [|lia].
  rewrite Hd.
  set (u := timeNow - timeInput + 4294967296).
  assert (Hu : 0 <= u < 4294967296) by (subst u; lia).
  assert (Hq : 0 <= u / 86400 < 49711).
  { split; [apply Z.div_pos; lia|].
    apply Z.div_lt_upper_bound; lia. }
  destruct (Z.leb_spec (timeInput - timeNow) (4294967296 - 32768 * 86400)).
  - destruct (Z.ltb_spec (u / 86400 - 65536) (MAX_BLOOM_DAYS cfg)); [|lia].
    split; reflexivity.
  - assert (MAX_BLOOM_DAYS cfg <= u / 86400).
    { apply Z.div_le_lower_bound; [lia|]. subst u. lia. }
    destruct (Z.ltb_spec (u / 86400) (MAX_BLOOM_DAYS cfg)); [lia|].
    split; reflexivity.
Qed.

(** On 2017-07-14, a bloom start one week ahead is stored. *)
Lemma setBloomStart_future_witness :
  storedSettings_bloomStart
    (setBloomStart shipped 1500000000 1500604800 (boot 0)) = 1500604800
  /\ EEPROM_bloomStart (setBloomStart shipped 1500000000 1500604800 (boot 0))
     = storedSettings_bloomStart
         (setBloomStart shipped 1500000000 1500604800 (boot 0)).
Proof.
  apply (setBloomStart_future shipped 1500000000 1500604800 (boot 0));
    vm_compute;
    first [ reflexivity | discriminate
          | split; first [reflexivity | discriminate] ].
Defined.

(** ** The shipped growth scheme at every time of day *)

Lemma growth_loop_out_of_bounds (fuel : nat) (limit : Z) (scheme : list Z)
    (timeNow : Z) (l : growth_locals) :
  sumOfGrowthLightPeriods l <= timeNow ->
  read scheme (count l) = None ->
  growth_loop (S fuel) limit scheme timeNow l = OutOfBounds (count l).
Proof.
  intros Hle Hr. cbn [growth_loop]. rewrite Hr.
  destruct (Z.leb_spec (sumOfGrowthLightPeriods l) timeNow); [reflexivity|lia].
Qed.

Ltac growth_phase_done :=
  cbn [bind count sumOfGrowthLightPeriods];
  match goal with
  | |- Done (set_growth ?c (to_long (to_ulong ?x)) ?st)
       = Done (set_growth ?c' ?v ?st) =>
      replace x with v by lia;
      replace c with c' by (vm_compute; reflexivity);
      rewrite to_ulong_small, to_long_small by lia;
      reflexivity
  end.

(** Before 16:20 the walk needs no wrap of [count]: all copies of the sketch
    find the period of the shipped scheme and the seconds left in it. *)
Lemma getGrowthLightPeriod_shipped_before_start (v : source_variant)
    (d s : Z) (fuel : nat) (st : state) :
  1 <= d -> (d + 2) * 86400 < 4294967296 -> (6 <= fuel)%nat ->
  0 <= s < 58800 ->
  getGrowthLightPeriod v fuel shipped (d * 86400 + s) st
  = Done (set_growth (fst (shipped_phase s)) (snd (shipped_phase s)) st).
Proof.
  intros Hd Hlt Hfuel Hs.
  destruct fuel as [|[|[|[|[|[|fuel]]]]]]; try lia.
  unfold getGrowthLightPeriod, shipped_phase.
  rewrite growth_start_shipped by lia.
  destruct (Z.ltb_spec s 15600);
    [|destruct (Z.ltb_spec s 35400);
      [|destruct (Z.ltb_spec s 39000);
        [|destruct (Z.ltb_spec s 58800); [|lia]]]];
    cbn [fst snd].
  - rewrite growth_loop_pass with (p := 720) by growth_side.
    rewrite growth_loop_exit by growth_side.
    destruct v; growth_phase_done.
  - rewrite growth_loop_fold with (p := 720) by growth_side.
    rewrite growth_loop_pass with (p := 330) by (destruct v; growth_side).
    rewrite growth_loop_exit by growth_side.
    destruct v; growth_phase_done.
  - rewrite growth_loop_fold with (p := 720) by growth_side.
    rewrite growth_loop_fold with (p := 330) by (destruct v; growth_side).
    rewrite growth_loop_pass with (p := 60) by (destruct v; growth_side).
    rewrite growth_loop_exit by growth_side.
    destruct v; growth_phase_done.
  - rewrite growth_loop_fold with (p := 720) by growth_side.
    rewrite growth_loop_fold with (p := 330) by (destruct v; growth_side).
    rewrite growth_loop_fold with (p := 60) by (destruct v; growth_side).
    rewrite growth_loop_pass with (p := 330) by (destruct v; growth_side).
    rewrite growth_loop_exit by growth_side.
    destruct v; growth_phase_done.
Qed.

(** The period and the seconds left that [PlantTimer.ino] finds on the shipped
    scheme, at every second of the day. *)
Lemma growth_shipped_phase_eq (d s : Z) (fuel : nat)
    (st : state) :
  1 <= d -> (d + 2) * 86400 < 4294967296 -> (6 <= fuel)%nat ->
  0 <= s < 86400 ->
  getGrowthLightPeriod PlantTimer_ino fuel shipped (d * 86400 + s) st
  = Done (set_growth (fst (shipped_phase s)) (snd (shipped_phase s)) st).
Proof.
  intros Hd Hlt Hfuel Hs.
  destruct (Z.lt_ge_cases s 58800) as [Hlo|Hhi].
  - apply getGrowthLightPeriod_shipped_before_start; lia.
  - destruct fuel as [|[|[|[|[|[|fuel]]]]]]; try lia.
    unfold getGrowthLightPeriod, shipped_phase.
    rewrite growth_start_shipped by lia.
    destruct (Z.ltb_spec s 15600); [lia|].
    destruct (Z.ltb_spec s 35400); [lia|].
    destruct (Z.ltb_spec s 39000); [lia|].
    destruct (Z.ltb_spec s 58800); [lia|].
    cbn [fst snd].
    rewrite growth_loop_fold with (p := 720) by growth_side.
    rewrite growth_loop_fold with (p := 330) by growth_side.
    rewrite growth_loop_fold with (p := 60) by growth_side.
    rewrite growth_loop_fold with (p := 330) by growth_side.
    rewrite growth_loop_pass with (p := 720) by growth_side.
    rewrite growth_loop_exit by growth_side.
    growth_phase_done.
Qed.

(** X1. [PlantTimer.ino] on the shipped scheme, at every second of every day
    of the clock: the period found and the seconds left in it are those of
    the scheme laid out from 16:20. *)
Theorem getGrowthLightPeriod_shipped_phase (d s : Z) (fuel : nat)
    (st : state) :
  1 <= d -> (d + 2) * 86400 < 4294967296 -> (6 <= fuel)%nat ->
  0 <= s < 86400 ->
  getGrowthLightPeriod PlantTimer_ino fuel shipped (d * 86400 + s) st
  = Done (set_growth (fst (shipped_phase s)) (snd (shipped_phase s)) st).
Proof. intros. apply growth_shipped_phase_eq; assumption. Qed.

Lemma getGrowthLightPeriod_shipped_phase_witness :
  getGrowthLightPeriod PlantTimer_ino 6 shipped (16801 * 86400 + 36000)
    (boot 0)
  = Done (set_growth 2 3000 (boot 0)).
Proof.
  apply (getGrowthLightPeriod_shipped_phase 16801 36000 6 (boot 0)); lia.
Defined.

(** X2. The older copies of the sketch on the shipped scheme.  Before 16:20
    they agree with [PlantTimer.ino]; from 16:20 to midnight, on every day,
    they read [growthLightScheme[4]]. *)
Theorem getGrowthLightPeriod_older_copies_phase (v : source_variant)
    (d s : Z) (fuel : nat) (st : state) :
  v <> PlantTimer_ino ->
  1 <= d -> (d + 2) * 86400 < 4294967296 -> (6 <= fuel)%nat ->
  0 <= s < 86400 ->
  getGrowthLightPeriod v fuel shipped (d * 86400 + s) st
  = if s <? 58800
    then Done (set_growth (fst (shipped_phase s)) (snd (shipped_phase s)) st)
    else OutOfBounds 4.
Proof.
  intros Hv Hd Hlt Hfuel Hs.
  destruct (Z.ltb_spec s 58800) as [Hlo|Hhi].
  - apply getGrowthLightPeriod_shipped_before_start; lia.
  - destruct fuel as [|[|[|[|[|[|fuel]]]]]]; try lia.
    unfold getGrowthLightPeriod.
    rewrite growth_start_shipped by lia.
    destruct v; [contradiction| | |];
      rewrite growth_loop_fold with (p := 720) by growth_side;
      rewrite growth_loop_fold with (p := 330) by growth_side;
      rewrite growth_loop_fold with (p := 60) by growth_side;
      rewrite growth_loop_fold with (p := 330) by growth_side;
      rewrite growth_loop_out_of_bounds by growth_side;
      reflexivity.
Qed.

Lemma getGrowthLightPeriod_older_copies_phase_witness :
  getGrowthLightPeriod part_002 6 shipped (16801 * 86400 + 70000) (boot 0)
  = OutOfBounds 4.
Proof.
  apply (getGrowthLightPeriod_older_copies_phase part_002 16801 70000 6
           (boot 0)); first [discriminate | lia].
Defined.

(** The shipped scheme one second before and at the end of the period under
    way. *)
Lemma growth_shipped_rearm_eq (d s : Z) (fuel : nat)
    (st : state) :
  1 <= d -> (d + 3) * 86400 < 4294967296 -> (6 <= fuel)%nat ->
  0 <= s < 86400 ->
  let timeNow := d * 86400 + s in
  let period := fst (shipped_phase s) in
  let seconds := snd (shipped_phase s) in
  let next := (period + 1) mod 4 in
  getGrowthLightPeriod PlantTimer_ino fuel shipped (timeNow + seconds - 1) st
    = Done (set_growth period 1 st)
  /\ getGrowthLightPeriod PlantTimer_ino fuel shipped (timeNow + seconds) st
    = Done (set_growth next
              (nth (Z.to_nat next) (growthLightScheme shipped) 0 * 60) st).
Proof.
  intros Hd Hlt Hfuel Hs timeNow period seconds next.
  subst timeNow period seconds next. unfold shipped_phase.
  destruct (Z.ltb_spec s 15600);
    [|destruct (Z.ltb_spec s 35400);
      [|destruct (Z.ltb_spec s 39000);
        [|destruct (Z.ltb_spec s 58800)]]];
    cbn [fst snd].
  - replace (d * 86400 + s + (15600 - s) - 1) with (d * 86400 + 15599) by lia.
    replace (d * 86400 + s + (15600 - s)) with (d * 86400 + 15600) by lia.
    rewrite !growth_shipped_phase_eq by lia. split; reflexivity.
  - replace (d * 86400 + s + (35400 - s) - 1) with (d * 86400 + 35399) by lia.
    replace (d * 86400 + s + (35400 - s)) with (d * 86400 + 35400) by lia.
    rewrite !growth_shipped_phase_eq by lia. split; reflexivity.
  - replace (d * 86400 + s + (39000 - s) - 1) with (d * 86400 + 38999) by lia.
    replace (d * 86400 + s + (39000 - s)) with (d * 86400 + 39000) by lia.
    rewrite !growth_shipped_phase_eq by lia. split; reflexivity.
  - replace (d * 86400 + s + (58800 - s) - 1) with (d * 86400 + 58799) by lia.
    replace (d * 86400 + s + (58800 - s)) with (d * 86400 + 58800) by lia.
    rewrite !growth_shipped_phase_eq by lia. split; reflexivity.
  - replace (d * 86400 + s + (102000 - s) - 1)
      with ((d + 1) * 86400 + 15599) by lia.
    replace (d * 86400 + s + (102000 - s)) with ((d + 1) * 86400 + 15600)
      by lia.
    rewrite !growth_shipped_phase_eq by lia. split; reflexivity.
Qed.

(** X3. Re-arming on the shipped scheme does not drift.  From any time, one
    second before the delay found has passed the period is still the same
    with one second left, and when it has passed the next period of the
    scheme (cyclically) has begun, with its whole length left. *)
Theorem getGrowthLightPeriod_shipped_rearm (d s : Z) (fuel : nat)
    (st : state) :
  1 <= d -> (d + 3) * 86400 < 4294967296 -> (6 <= fuel)%nat ->
  0 <= s < 86400 ->
  let timeNow := d * 86400 + s in
  let period := fst (shipped_phase s) in
  let seconds := snd (shipped_phase s) in
  let next := (period + 1) mod 4 in
  getGrowthLightPeriod PlantTimer_ino fuel shipped (timeNow + seconds - 1) st
    = Done (set_growth period 1 st)
  /\ getGrowthLightPeriod PlantTimer_ino fuel shipped (timeNow + seconds) st
    = Done (set_growth next
              (nth (Z.to_nat next) (growthLightScheme shipped) 0 * 60) st).
Proof. intros. apply growth_shipped_rearm_eq; assumption. Qed.

Lemma getGrowthLightPeriod_shipped_rearm_witness :
  getGrowthLightPeriod PlantTimer_ino 6 shipped
    (16801 * 86400 + 70000 + 32000 - 1) (boot 0)
    = Done (set_growth 0 1 (boot 0))
  /\ getGrowthLightPeriod PlantTimer_ino 6 shipped
       (16801 * 86400 + 70000 + 32000) (boot 0)
    = Done (set_growth 1 19800 (boot 0)).
Proof.
  apply (getGrowthLightPeriod_shipped_rearm 16801 70000 6 (boot 0)); lia.
Defined.

(** X4. [PlantTimer.ino] never reads outside [growthLightScheme], whatever the
    scheme (if it is not empty), the time and the number of passes. *)
Theorem getGrowthLightPeriod_PlantTimer_ino_in_bounds (fuel : nat)
    (cfg : config) (timeNow : Z) (st : state) :
  growthLightScheme cfg <> [] ->
  match getGrowthLightPeriod PlantTimer_ino fuel cfg timeNow st with
  | Done st' =>
      0 <= currentGrowthLightPeriod st' < GROWTH_LIGHT_PERIODS cfg
  | OutOfFuel => True
  | OutOfBounds _ => False
  end.
Proof.
  intros Hne. unfold getGrowthLightPeriod.
  pose proof (growth_loop_PlantTimer_ino_in_bounds fuel cfg timeNow
                {| sumOfGrowthLightPeriods := growth_start cfg timeNow;
                   count := 0; current := currentGrowthLightPeriod st |}) as H.
  cbn [count] in H.
  destruct (growth_loop _ _ _ _ _); cbn [bind]; apply H;
    unfold GROWTH_LIGHT_PERIODS;
    (destruct (growthLightScheme cfg); [contradiction|cbn [length]; lia]).
Qed.

Lemma getGrowthLightPeriod_PlantTimer_ino_in_bounds_witness :
  match getGrowthLightPeriod PlantTimer_ino 3 shipped 1500000000 (boot 0) with
  | Done st' =>
      0 <= currentGrowthLightPeriod st' < GROWTH_LIGHT_PERIODS shipped
  | OutOfFuel => True
  | OutOfBounds _ => False
  end.
Proof.
  apply (getGrowthLightPeriod_PlantTimer_ino_in_bounds 3 shipped 1500000000
           (boot 0)).
  discriminate.
Defined.

(** The global [currentGrowthLightPeriod] that the loop assigns on its way
    has no part in where the walk ends. *)
Lemma growth_loop_current (fuel : nat) (limit : Z) (scheme : list Z)
    (timeNow : Z) (l : growth_locals) (c : Z) :
  match growth_loop fuel limit scheme timeNow l,
        growth_loop fuel limit scheme timeNow
          {| sumOfGrowthLightPeriods := sumOfGrowthLightPeriods l;
             count := count l; current := c |} with
  | Done r, Done r' =>
      sumOfGrowthLightPeriods r = sumOfGrowthLightPeriods r'
      /\ count r = count r'
  | OutOfFuel, OutOfFuel => True
  | OutOfBounds i, OutOfBounds j => i = j
  | _, _ => False
  end.
Proof.
  revert l c. induction fuel as [|fuel IH]; intros l c;
    cbn [growth_loop sumOfGrowthLightPeriods count current]; [exact I|].
  destruct (sumOfGrowthLightPeriods l <=? timeNow); [|split; reflexivity].
  destruct (read scheme (count l)); [|reflexivity].
  destruct (_ <=? timeNow).
  - specialize (IH {| sumOfGrowthLightPeriods :=
                        to_ulong (sumOfGrowthLightPeriods l
                                  + to_ulong (to_ulong z * SECS_PER_MIN));
                      count := if count l <? limit
                               then to_byte (count l + 1) else 0;
                      current := count l |} (count l)).
    cbn [sumOfGrowthLightPeriods count current] in IH.
    destruct (growth_loop fuel _ _ _ _); exact IH.
  - apply (IH {| sumOfGrowthLightPeriods :=
                   to_ulong (sumOfGrowthLightPeriods l
                             + to_ulong (to_ulong z * SECS_PER_MIN));
                 count := count l; current := current l |} c).
Qed.

(** [getGrowthLightPeriod] reads nothing of the globals: from any two states
    it finds the same period and the same seconds. *)
Lemma getGrowthLightPeriod_frame (v : source_variant) (fuel : nat)
    (cfg : config) (timeNow : Z) (st st2 st' : state) :
  getGrowthLightPeriod v fuel cfg timeNow st = Done st' ->
  st' = set_growth (currentGrowthLightPeriod st')
          (secondsToNextGrowthLightSwitch st') st
  /\ getGrowthLightPeriod v fuel cfg timeNow st2
     = Done (set_growth (currentGrowthLightPeriod st')
               (secondsToNextGrowthLightSwitch st') st2).
Proof.
  unfold getGrowthLightPeriod. intros H.
  pose proof (growth_loop_current fuel (count_limit v cfg)
                (growthLightScheme cfg) timeNow
                {| sumOfGrowthLightPeriods := growth_start cfg timeNow;
                   count := 0; current := currentGrowthLightPeriod st |}
                (currentGrowthLightPeriod st2)) as Hc.
  cbn [sumOfGrowthLightPeriods count current] in Hc.
  destruct (growth_loop fuel _ _ _
              {| sumOfGrowthLightPeriods := growth_start cfg timeNow;
                 count := 0; current := currentGrowthLightPeriod st |})
    as [r| |i]; cbn [bind] in H; try discriminate.
  destruct (growth_loop fuel _ _ _ _) as [r'| |j]; try contradiction.
  destruct Hc as [Hs Hc]. injection H as <-.
  cbn [bind]. rewrite <- Hs, <- Hc. split; reflexivity.
Qed.

(** So does the delay that [getGrowthLightPeriod] stores, and a positive
    one is handed to [Alarm.timerOnce] unchanged. *)
Lemma getGrowthLightPeriod_seconds_range (v : source_variant) (fuel : nat)
    (cfg : config) (timeNow : Z) (st st' : state) :
  getGrowthLightPeriod v fuel cfg timeNow st = Done st' ->
  - 2147483648 <= secondsToNextGrowthLightSwitch st' < 2147483648.
Proof.
  unfold getGrowthLightPeriod.
  destruct (growth_loop _ _ _ _ _) as [r| |i]; cbn [bind]; intros H;
    try discriminate.
  injection H as <-. cbn [set_growth secondsToNextGrowthLightSwitch].
  apply to_long_range.
Qed.

(** X16. Boot without a bloom start.  When the EEPROM holds 0, [setup]
    returns, for every scheme of strictly positive periods and every clock
    value from one day after the epoch on: it arms the growth light alarm
    with a strictly positive delay, the two repeating sensor alarms and the
    irrigation alarm and nothing for the bloom and sleep lights; the bloom
    light relay is driven like the growth light relay (on in the periods of
    even index, off in the others) and the bloom status and day counter are
    not touched. *)
Theorem setup_without_bloomStart (cfg : config) (timeNow : Z) (st : state) :
  EEPROM_bloomStart st = 0 ->
  switchBloomLightInGrowthSchemeIfNotInBloom cfg = true ->
  growthLightScheme cfg <> [] ->
  Forall (fun p => 0 < p < 32768) (growthLightScheme cfg) ->
  0 <= growthLightStartTimeHour cfg < 24 ->
  0 <= growthLightStartTimeMinute cfg < 60 ->
  86400 <= timeNow -> timeNow + 32767 * 60 < 4294967296 ->
  exists fuel st',
    setup fuel cfg true timeNow st = Done st'
    /\ 0 < secondsToNextGrowthLightSwitch st'
    /\ 0 <= currentGrowthLightPeriod st' < GROWTH_LIGHT_PERIODS cfg
    /\ alarms st'
       = timerOnce (fst (irrigationScheme cfg)) turnOffIrrigation_h
         :: timerRepeat 180 printOneWireDevices_h
         :: timerRepeat 5 requestOneWireTemperatures_h
         :: timerOnce (secondsToNextGrowthLightSwitch st')
              (if Z.land (currentGrowthLightPeriod st') 1 =? 0
               then turnOffGrowthLight_h else turnOnGrowthLight_h)
         :: alarms st
    /\ pin_level PIN_LIGHT_1 (writes st')
       = Some (if Z.land (currentGrowthLightPeriod st') 1 =? 0
               then RELAYON else RELAYOFF)
    /\ pin_level PIN_LIGHT_2 (writes st')
       = Some (if Z.land (currentGrowthLightPeriod st') 1 =? 0
               then RELAYON else RELAYOFF)
    /\ pin_level PIN_LIGHT_3 (writes st') = Some RELAYOFF
    /\ bloomLightStatus st' = bloomLightStatus st
    /\ bloomDayCounter st' = bloomDayCounter st.
Proof.
  intros He Hsw Hne Hpos Hh Hm Hlo Hhi.
  set (st0 := EEPROM_get (setup_pins st)).
  destruct (getGrowthLightPeriod_terminates cfg timeNow st0
              Hne Hpos Hh Hm Hlo Hhi) as [fuel [st1 [Eg [Hs Hp]]]].
  pose proof (getGrowthLightPeriod_seconds_range _ _ _ _ _ _ Eg) as Hr.
  destruct (getGrowthLightPeriod_frame _ _ _ _ st0
              (digitalWrite PIN_LIGHT_2 LOW
                 (digitalWrite PIN_LIGHT_1 RELAYON st1)) st1 Eg)
    as [Hst1 Hagain].
  set (p := currentGrowthLightPeriod st1) in *.
  set (s := secondsToNextGrowthLightSwitch st1) in *.
  assert (Hu : to_ulong s = s) by (apply to_ulong_small; lia).
  assert (H0 : storedSettings_bloomStart st1 = 0)
    by (rewrite Hst1; exact He).
  exists fuel. unfold setup, setup_growth. fold st0. rewrite Eg.
  cbn [bind]. fold p s. rewrite Hu.
  destruct (Z.land p 1 =? 0) eqn:Elit.
  - unfold turnOnGrowthLight, not_in_bloom. rewrite Hsw.
    change (storedSettings_bloomStart (digitalWrite PIN_LIGHT_1 RELAYON st1))
      with (storedSettings_bloomStart st1).
    rewrite H0. cbn [Z.eqb orb andb]. rewrite Hagain. cbn [bind].
    unfold setup_bloom.
    change (storedSettings_bloomStart
              (Alarm _ (set_growth p s
                 (digitalWrite PIN_LIGHT_2 LOW
                    (digitalWrite PIN_LIGHT_1 RELAYON st1)))))
      with (storedSettings_bloomStart st1).
    rewrite H0. cbn [Z.ltb Z.compare andb bind].
    eexists. split; [reflexivity|].
    cbn [currentGrowthLightPeriod secondsToNextGrowthLightSwitch Alarm
         turnOnIrrigation digitalWrite set_growth alarms writes
         bloomLightStatus bloomDayCounter].
    rewrite Hu, Elit, Hst1. subst st0.
    split; [exact Hs|]. split; [exact Hp|].
    repeat split; reflexivity.
  - cbn [bind]. unfold setup_bloom.
    change (storedSettings_bloomStart (Alarm _ st1))
      with (storedSettings_bloomStart st1).
    rewrite H0. cbn [Z.ltb Z.compare andb bind].
    eexists. split; [reflexivity|].
    cbn [currentGrowthLightPeriod secondsToNextGrowthLightSwitch Alarm
         turnOnIrrigation digitalWrite set_growth alarms writes
         bloomLightStatus bloomDayCounter].
    fold p s. rewrite Elit, Hst1. subst st0.
    split; [exact Hs|]. split; [exact Hp|].
    repeat split; reflexivity.
Qed.

(** The shipped scheme at 2017-07-14 02:40: period 0, lights on. *)
Lemma setup_without_bloomStart_witness :
  exists fuel st',
    setup fuel shipped true 1500000000 (boot 0) = Done st'
    /\ 0 < secondsToNextGrowthLightSwitch st'
    /\ 0 <= currentGrowthLightPeriod st' < GROWTH_LIGHT_PERIODS shipped
    /\ alarms st'
       = timerOnce (fst (irrigationScheme shipped)) turnOffIrrigation_h
         :: timerRepeat 180 printOneWireDevices_h
         :: timerRepeat 5 requestOneWireTemperatures_h
         :: timerOnce (secondsToNextGrowthLightSwitch st')
              (if Z.land (currentGrowthLightPeriod st') 1 =? 0
               then turnOffGrowthLight_h else turnOnGrowthLight_h)
         :: alarms (boot 0)
    /\ pin_level PIN_LIGHT_1 (writes st')
       = Some (if Z.land (currentGrowthLightPeriod st') 1 =? 0
               then RELAYON else RELAYOFF)
    /\ pin_level PIN_LIGHT_2 (writes st')
       = Some (if Z.land (currentGrowthLightPeriod st') 1 =? 0
               then RELAYON else RELAYOFF)
    /\ pin_level PIN_LIGHT_3 (writes st') = Some RELAYOFF
    /\ bloomLightStatus st' = bloomLightStatus (boot 0)
    /\ bloomDayCounter st' = bloomDayCounter (boot 0).
Proof.
  apply (setup_without_bloomStart shipped 1500000000 (boot 0)).
  - reflexivity.
  - reflexivity.
  - discriminate.
  - repeat constructor.
  - cbn; lia.
  - cbn; lia.
  - lia.
  - lia.
Defined.

(** ** The alarm handlers in step with the schemes *)

Ltac split_refl := (split; [reflexivity|]).

(** X7. The growth light handlers keep step with the shipped scheme.
    Whenever [turnOnGrowthLight] runs, the alarm it arms for
    [turnOffGrowthLight] falls on the end of the period under way; run at
    that moment, [turnOffGrowthLight] finds the next period of the scheme and
    arms [turnOnGrowthLight] for its whole length.  The relay of the growth
    light is driven on by the one and off by the other. *)
Theorem growth_handlers_in_step (d s : Z) (fuel : nat) (st : state) :
  1 <= d -> (d + 3) * 86400 < 4294967296 -> (6 <= fuel)%nat ->
  0 <= s < 86400 ->
  let timeNow := d * 86400 + s in
  let seconds := snd (shipped_phase s) in
  let next := (fst (shipped_phase s) + 1) mod 4 in
  match turnOnGrowthLight fuel shipped timeNow st with
  | Done st1 =>
      alarms st1 = timerOnce seconds turnOffGrowthLight_h :: alarms st
      /\ pin_level PIN_LIGHT_1 (writes st1) = Some RELAYON
      /\ match turnOffGrowthLight fuel shipped (timeNow + seconds) st1 with
         | Done st2 =>
             alarms st2
             = timerOnce
                 (nth (Z.to_nat next) (growthLightScheme shipped) 0 * 60)
                 turnOnGrowthLight_h :: alarms st1
             /\ currentGrowthLightPeriod st2 = next
             /\ pin_level PIN_LIGHT_1 (writes st2) = Some RELAYOFF
         | OutOfFuel | OutOfBounds _ => False
         end
  | OutOfFuel | OutOfBounds _ => False
  end.
Proof.
  intros Hd Hlt Hfuel Hs timeNow seconds next.
  destruct (growth_shipped_rearm_eq d s fuel st Hd Hlt Hfuel Hs)
    as [_ Hnext].
  fold timeNow seconds next in Hnext.
  assert (Hu1 : to_ulong seconds = seconds).
  { apply to_ulong_small. subst seconds. unfold shipped_phase.
    repeat match goal with
           | |- context [?a <? ?b] => destruct (Z.ltb_spec a b)
           end; cbn [snd]; lia. }
  assert (Hu2 : to_ulong (nth (Z.to_nat next) (growthLightScheme shipped) 0
                          * 60)
                = nth (Z.to_nat next) (growthLightScheme shipped) 0 * 60).
  { subst next. unfold shipped_phase.
    repeat match goal with
           | |- context [?a <? ?b] => destruct (a <? b)
           end; reflexivity. }
  unfold turnOnGrowthLight. subst timeNow.
  rewrite growth_shipped_phase_eq by lia.
  cbn [bind]. fold seconds.
  cbn [secondsToNextGrowthLightSwitch set_growth]. rewrite Hu1.
  destruct (switchBloomLightInGrowthSchemeIfNotInBloom shipped
            && not_in_bloom (d * 86400 + s)
                 (digitalWrite PIN_LIGHT_1 RELAYON st));
    (split_refl; split_refl;
     unfold turnOffGrowthLight;
     match goal with
     | |- context [if ?c then _ else _] => destruct c
     end;
     match goal with
     | |- context [getGrowthLightPeriod PlantTimer_ino fuel shipped
                     (d * 86400 + s + seconds) ?x] =>
         destruct (getGrowthLightPeriod_frame PlantTimer_ino fuel shipped
                     (d * 86400 + s + seconds) st x _ Hnext) as [_ Hx];
         rewrite Hx
     end;
     cbn [bind secondsToNextGrowthLightSwitch set_growth]; rewrite Hu2;
     split_refl; split_refl; reflexivity).
Qed.

(** The handlers of the shipped scheme from 16:20 on 2016-01-01. *)
Lemma growth_handlers_in_step_witness :
  match turnOnGrowthLight 6 shipped (16801 * 86400 + 58800) (boot 0) with
  | Done st1 =>
      alarms st1 = timerOnce 43200 turnOffGrowthLight_h :: alarms (boot 0)
      /\ pin_level PIN_LIGHT_1 (writes st1) = Some RELAYON
      /\ match turnOffGrowthLight 6 shipped
                 (16801 * 86400 + 58800 + 43200) st1 with
         | Done st2 =>
             alarms st2
             = timerOnce (330 * 60) turnOnGrowthLight_h :: alarms st1
             /\ currentGrowthLightPeriod st2 = 1
             /\ pin_level PIN_LIGHT_1 (writes st2) = Some RELAYOFF
         | OutOfFuel | OutOfBounds _ => False
         end
  | OutOfFuel | OutOfBounds _ => False
  end.
Proof.
  apply (growth_handlers_in_step 16801 58800 6 (boot 0)); lia.
Defined.

(** ** The bloom light at every time before and after the day-length
    modification starts *)

Section BloomPhase.

Variables (cfg : config) (timeNow : Z).

Local Abbreviation on := (fst (bloomLightScheme cfg)).
Local Abbreviation off := (snd (bloomLightScheme cfg)).
Local Abbreviation reduction := (reductionOfDaytimeInMinutes cfg).
Local Abbreviation prolong := (prolongNighttimeInMinutes cfg).
Local Abbreviation start := (startOfDaytimeReduction cfg).

Hypothesis on_range : 0 < on < 32768.
Hypothesis off_range : 0 < off < 32768.
Hypothesis timeNow_range :
  0 <= timeNow /\ timeNow + (on + off) * 60 < 4294967296.

(** [n] whole bloom days that end by [timeNow], before the modification. *)
Lemma bloom_loop_whole_days (n fuel : nat) (sum k : Z) :
  0 <= sum -> sum + Z.of_nat n * ((on + off) * 60) <= timeNow ->
  0 <= k -> k + Z.of_nat n <= start -> start < 256 ->
  bloom_loop (2 * n + fuel) cfg timeNow
    {| sumOfBloomLightPeriods := sum; status := false; counter := k |}
  = bloom_loop fuel cfg timeNow
      {| sumOfBloomLightPeriods := sum + Z.of_nat n * ((on + off) * 60);
         status := false; counter := k + Z.of_nat n |}.
Proof.
  revert sum k. induction n as [|n IH]; intros sum k Hs Hsum Hk Hkn Hst.
  - cbn [Nat.mul Nat.add Z.of_nat]. f_equal. f_equal; lia.
  - replace (2 * S n + fuel)%nat with (S (S (2 * n + fuel))) by lia.
    assert (0 <= Z.of_nat n * ((on + off) * 60))
      by (apply Z.mul_nonneg_nonneg; lia).
    rewrite (bloom_loop_day cfg timeNow on_range off_range timeNow_range)
      by lia.
    rewrite IH by lia. f_equal. f_equal; lia.
Qed.

Hypothesis reduction_range : 0 <= reduction <= on.
Hypothesis reduction_night : reduction <= off + prolong.
Hypothesis prolong_range :
  0 <= prolong < 256 /\ timeNow + (on + off + prolong) * 60 < 4294967296.

(** The body at the end of a day or night once the modification applies. *)
Lemma bloom_body_fold_modified (l : bloom_locals) :
  0 <= sumOfBloomLightPeriods l ->
  sumOfBloomLightPeriods l
    + at2 (bloomLightScheme cfg) (status l) * 60 <= timeNow ->
  start <= counter l ->
  bloom_body cfg timeNow l
  = {| sumOfBloomLightPeriods :=
         if status l
         then sumOfBloomLightPeriods l + off * 60 + prolong * 60
         else sumOfBloomLightPeriods l + on * 60 - reduction * 60;
       status := negb (status l);
       counter := if status l then to_byte (counter l + 1) else counter l |}.
Proof.
  intros Hs Hle Hc. unfold bloom_body.
  destruct (period_seconds cfg on_range off_range (status l)) as [-> Hp].
  rewrite (to_ulong_small (_ + _)) by lia.
  unfold SECS_PER_MIN.
  rewrite (to_ulong_small (reduction * 60)),
    (to_ulong_small (prolong * 60)) by lia.
  destruct (Z.leb_spec (sumOfBloomLightPeriods l
                        + at2 (bloomLightScheme cfg) (status l) * 60)
              timeNow); [|lia].
  destruct (Z.leb_spec start (counter l)); [|lia].
  destruct (status l); cbn [negb at2] in *;
    rewrite to_ulong_small by lia; reflexivity.
Qed.

(** One bloom day once the modification applies: it is shorter by the
    reduction and longer by the prolongation, by the same amount every
    day. *)
Lemma bloom_loop_modified_day (fuel : nat) (sum k : Z) :
  0 <= sum ->
  sum + (on - reduction + off + prolong) * 60 <= timeNow ->
  start <= k -> 0 <= k < 255 ->
  bloom_loop (S (S fuel)) cfg timeNow
    {| sumOfBloomLightPeriods := sum; status := false; counter := k |}
  = bloom_loop fuel cfg timeNow
      {| sumOfBloomLightPeriods :=
           sum + (on - reduction + off + prolong) * 60;
         status := false; counter := k + 1 |}.
Proof.
  intros Hs Hle Hk Hk'.
  cbn [bloom_loop sumOfBloomLightPeriods].
  destruct (Z.leb_spec sum timeNow); [|lia].
  rewrite bloom_body_fold_modified by (cbn [sumOfBloomLightPeriods status counter at2]; lia).
  cbn [sumOfBloomLightPeriods status counter at2 negb].
  destruct (Z.leb_spec (sum + on * 60 - reduction * 60) timeNow); [|lia].
  rewrite bloom_body_fold_modified by (cbn [sumOfBloomLightPeriods status counter at2]; lia).
  cbn [sumOfBloomLightPeriods status counter at2 negb].
  rewrite to_byte_small by lia.
  f_equal. f_equal. lia.
Qed.

Lemma bloom_loop_modified_days (n fuel : nat) (sum k : Z) :
  0 <= sum ->
  sum + Z.of_nat n * ((on - reduction + off + prolong) * 60) <= timeNow ->
  start <= k -> 0 <= k -> k + Z.of_nat n <= 255 ->
  bloom_loop (2 * n + fuel) cfg timeNow
    {| sumOfBloomLightPeriods := sum; status := false; counter := k |}
  = bloom_loop fuel cfg timeNow
      {| sumOfBloomLightPeriods :=
           sum + Z.of_nat n * ((on - reduction + off + prolong) * 60);
         status := false; counter := k + Z.of_nat n |}.
Proof.
  revert sum k. induction n as [|n IH]; intros sum k Hs Hsum Hk Hk0 Hkn.
  - cbn [Nat.mul Nat.add Z.of_nat]. f_equal. f_equal; lia.
  - replace (2 * S n + fuel)%nat with (S (S (2 * n + fuel))) by lia.
    assert (0 <= Z.of_nat n * ((on - reduction + off + prolong) * 60))
      by (apply Z.mul_nonneg_nonneg; lia).
    rewrite bloom_loop_modified_day by lia.
    rewrite IH by lia. f_equal. f_equal; lia.
Qed.

End BloomPhase.

(** X8. Cold boot before the day-length modification starts.  From the boot
    state, [N] whole bloom days and [r] seconds after the bloom start, the
    walk finds the lit period with the rest of it to go while [r] is short
    of the lit period, the dark period with the rest of the bloom day to go
    otherwise, and [N] days counted. *)
Theorem getBloomLightStatus_plain_phase (cfg : config) (bloomStart N r : Z)
    (st : state) :
  0 < fst (bloomLightScheme cfg) < 32768 ->
  0 < snd (bloomLightScheme cfg) < 32768 ->
  0 <= N < startOfDaytimeReduction cfg ->
  startOfDaytimeReduction cfg < 256 ->
  0 <= bloomStart ->
  0 <= r < (fst (bloomLightScheme cfg) + snd (bloomLightScheme cfg)) * 60 ->
  bloomStart
    + (N + 2) * ((fst (bloomLightScheme cfg) + snd (bloomLightScheme cfg)) * 60)
    < 4294967296 ->
  storedSettings_bloomStart st = bloomStart ->
  bloomLightStatus st = false ->
  bloomDayCounter st = 0 ->
  exists fuel,
    getBloomLightStatus fuel cfg
      (bloomStart
       + N * ((fst (bloomLightScheme cfg) + snd (bloomLightScheme cfg)) * 60)
       + r) st
    = Done (if r <? fst (bloomLightScheme cfg) * 60
            then set_bloom false N (fst (bloomLightScheme cfg) * 60 - r) st
            else set_bloom true N
                   ((fst (bloomLightScheme cfg)
                     + snd (bloomLightScheme cfg)) * 60 - r) st).
Proof.
  intros Hon Hoff HN Hstart HS Hr Hlt Hb Hs Hc.
  set (on := fst (bloomLightScheme cfg)) in *.
  set (off := snd (bloomLightScheme cfg)) in *.
  pose proof (Z.mul_nonneg_nonneg N on ltac:(lia) ltac:(lia)) as P1.
  pose proof (Z.mul_nonneg_nonneg N off ltac:(lia) ltac:(lia)) as P2.
  set (timeNow := bloomStart + N * ((on + off) * 60) + r).
  assert (Hnow : 0 <= timeNow /\ timeNow + (on + off) * 60 < 4294967296)
    by (subst timeNow; lia).
  exists (2 * Z.to_nat N + 3)%nat.
  unfold getBloomLightStatus. rewrite Hb, Hs, Hc.
  rewrite (bloom_loop_whole_days cfg timeNow Hon Hoff Hnow);
    rewrite ?Z2Nat.id; fold on off; try (subst timeNow; lia).
  cbn [bloom_loop sumOfBloomLightPeriods Z.add].
  destruct (Z.leb_spec (bloomStart + N * ((on + off) * 60)) timeNow);
    [|subst timeNow; lia].
  destruct (Z.ltb_spec r (on * 60)) as [Hlit|Hdark].
  - rewrite (bloom_body_pass cfg timeNow Hon Hoff Hnow)
      by (cbn [sumOfBloomLightPeriods status at2]; fold on;
          subst timeNow; lia).
    cbn [sumOfBloomLightPeriods status counter at2]. fold on.
    destruct (Z.leb_spec (bloomStart + N * ((on + off) * 60) + on * 60)
                timeNow); [subst timeNow; lia|].
    cbn [bind sumOfBloomLightPeriods status counter]. f_equal. f_equal.
    replace (bloomStart + N * ((on + off) * 60) + on * 60 - timeNow)
      with (on * 60 - r) by (subst timeNow; lia).
    rewrite to_ulong_small, to_long_small by lia. reflexivity.
  - rewrite (bloom_body_fold_plain cfg timeNow Hon Hoff Hnow)
      by (cbn [sumOfBloomLightPeriods status counter at2]; fold on;
          subst timeNow; lia).
    cbn [sumOfBloomLightPeriods status counter at2 negb]. fold on.
    destruct (Z.leb_spec (bloomStart + N * ((on + off) * 60) + on * 60)
                timeNow); [|subst timeNow; lia].
    rewrite (bloom_body_pass cfg timeNow Hon Hoff Hnow)
      by (cbn [sumOfBloomLightPeriods status at2]; fold on off;
          subst timeNow; lia).
    cbn [sumOfBloomLightPeriods status counter at2]. fold off.
    destruct (Z.leb_spec
                (bloomStart + N * ((on + off) * 60) + on * 60 + off * 60)
                timeNow); [subst timeNow; lia|].
    cbn [bind sumOfBloomLightPeriods status counter]. f_equal. f_equal.
    replace (bloomStart + N * ((on + off) * 60) + on * 60 + off * 60
             - timeNow)
      with ((on + off) * 60 - r) by (subst timeNow; lia).
    rewrite to_ulong_small, to_long_small by lia. reflexivity.
Qed.

(** Three days and fourteen hours into the shipped bloom scheme: dark. *)
Lemma getBloomLightStatus_plain_phase_witness :
  exists fuel,
    getBloomLightStatus fuel shipped
      (1451606400 + 3 * ((780 + 690) * 60) + 50400)
      (EEPROM_get (boot 1451606400))
    = Done (set_bloom true 3 37800 (EEPROM_get (boot 1451606400))).
Proof.
  apply (getBloomLightStatus_plain_phase shipped 1451606400 3 50400
           (EEPROM_get (boot 1451606400)));
    cbn; first [reflexivity | lia].
Defined.



(** The walk in the lit period before the day-length modification, from any
    day counter and with any fuel that suffices. *)
Lemma getBloomLightStatus_plain_lit (cfg : config) (bloomStart N r k : Z)
    (extra : nat) (st : state) :
  0 < fst (bloomLightScheme cfg) < 32768 ->
  0 < snd (bloomLightScheme cfg) < 32768 ->
  0 <= N -> 0 <= k -> k + N <= startOfDaytimeReduction cfg ->
  startOfDaytimeReduction cfg < 256 ->
  0 <= bloomStart ->
  0 <= r < fst (bloomLightScheme cfg) * 60 ->
  bloomStart
    + (N + 2) * ((fst (bloomLightScheme cfg) + snd (bloomLightScheme cfg)) * 60)
    < 4294967296 ->
  storedSettings_bloomStart st = bloomStart ->
  bloomLightStatus st = false ->
  bloomDayCounter st = k ->
  getBloomLightStatus (2 * Z.to_nat N + (2 + extra)) cfg
    (bloomStart
     + N * ((fst (bloomLightScheme cfg) + snd (bloomLightScheme cfg)) * 60)
     + r) st
  = Done (set_bloom false (k + N) (fst (bloomLightScheme cfg) * 60 - r) st).
Proof.
  intros Hon Hoff HN Hk HkN Hstart HS Hr Hlt Hb Hs Hc.
  set (on := fst (bloomLightScheme cfg)) in *.
  set (off := snd (bloomLightScheme cfg)) in *.
  pose proof (Z.mul_nonneg_nonneg N on ltac:(lia) ltac:(lia)) as P1.
  pose proof (Z.mul_nonneg_nonneg N off ltac:(lia) ltac:(lia)) as P2.
  set (timeNow := bloomStart + N * ((on + off) * 60) + r).
  assert (Hnow : 0 <= timeNow /\ timeNow + (on + off) * 60 < 4294967296)
    by (subst timeNow; lia).
  unfold getBloomLightStatus. rewrite Hb, Hs, Hc.
  rewrite (bloom_loop_whole_days cfg timeNow Hon Hoff Hnow);
    rewrite ?Z2Nat.id; fold on off; try (subst timeNow; lia).
  change (2 + extra)%nat with (S (S extra)).
  cbn [bloom_loop sumOfBloomLightPeriods].
  destruct (Z.leb_spec (bloomStart + N * ((on + off) * 60)) timeNow);
    [|subst timeNow; lia].
  rewrite (bloom_body_pass cfg timeNow Hon Hoff Hnow)
    by (cbn [sumOfBloomLightPeriods status at2]; fold on; subst timeNow; lia).
  cbn [sumOfBloomLightPeriods status counter at2]. fold on.
  destruct (Z.leb_spec (bloomStart + N * ((on + off) * 60) + on * 60)
              timeNow); [subst timeNow; lia|].
  cbn [bind sumOfBloomLightPeriods status counter]. f_equal. f_equal.
  replace (bloomStart + N * ((on + off) * 60) + on * 60 - timeNow)
    with (on * 60 - r) by (subst timeNow; lia).
  rewrite to_ulong_small, to_long_small by lia. reflexivity.
Qed.

(** X15. A boot in the lit period counts the bloom days twice.  In the lit
    period [setup] calls [getBloomLightStatus] and then [turnOnBloomLight],
    which calls it again; the second walk goes on from the day counter of
    the first.  [N] whole days after the bloom start (with [2 N] days still
    before the day-length modification) [setup] leaves the counter at [2 N],
    where one call alone counts [N]. *)
Theorem setup_bloom_counts_twice (cfg : config) (bloomStart N r : Z)
    (extra : nat) (st : state) :
  0 < fst (bloomLightScheme cfg) < 32768 ->
  0 < snd (bloomLightScheme cfg) < 32768 ->
  0 < N -> 2 * N <= startOfDaytimeReduction cfg ->
  startOfDaytimeReduction cfg < 256 ->
  0 < bloomStart ->
  0 <= r < fst (bloomLightScheme cfg) * 60 ->
  bloomStart
    + (N + 2) * ((fst (bloomLightScheme cfg) + snd (bloomLightScheme cfg)) * 60)
    < 4294967296 ->
  storedSettings_bloomStart st = bloomStart ->
  bloomLightStatus st = false ->
  bloomDayCounter st = 0 ->
  exists st',
    setup_bloom (2 * Z.to_nat N + (2 + extra)) cfg
      (bloomStart
       + N * ((fst (bloomLightScheme cfg) + snd (bloomLightScheme cfg)) * 60)
       + r) st
    = Done st'
    /\ bloomDayCounter st' = 2 * N
    /\ bloomLightStatus st' = false
    /\ secondsToNextBloomLightSwitch st'
       = fst (bloomLightScheme cfg) * 60 - r
    /\ In (timerOnce (fst (bloomLightScheme cfg) * 60 - r)
             turnOffBloomLight_h) (alarms st').
Proof.
  intros Hon Hoff HN H2N Hstart HS Hr Hlt Hb Hs Hc.
  set (on := fst (bloomLightScheme cfg)) in *.
  set (off := snd (bloomLightScheme cfg)) in *.
  pose proof (Z.mul_pos_pos N ((on + off) * 60) ltac:(lia) ltac:(lia)) as P.
  set (timeNow := bloomStart + N * ((on + off) * 60) + r) in *.
  unfold setup_bloom. rewrite Hb.
  destruct (Z.ltb_spec 0 bloomStart); [|lia].
  rewrite (to_ulong_small (timeNow - bloomStart)) by (subst timeNow; lia).
  destruct (Z.ltb_spec 0 (timeNow - bloomStart)); [|subst timeNow; lia].
  cbn [andb]. subst timeNow on off.
  rewrite (getBloomLightStatus_plain_lit cfg bloomStart N r 0 extra st)
    by (assumption || lia).
  cbn [bind bloomLightStatus set_bloom negb]. unfold turnOnBloomLight.
  rewrite (getBloomLightStatus_plain_lit cfg bloomStart N r (0 + N) extra)
    by (assumption || reflexivity || lia).
  cbn [bind].
  match goal with
  | |- context [getSleepLightStatus cfg ?s] =>
      assert (Hw : alarms (snd (getSleepLightStatus cfg s)) = alarms s
                   /\ bloomLightStatus (snd (getSleepLightStatus cfg s))
                      = bloomLightStatus s
                   /\ bloomDayCounter (snd (getSleepLightStatus cfg s))
                      = bloomDayCounter s
                   /\ secondsToNextBloomLightSwitch
                        (snd (getSleepLightStatus cfg s))
                      = secondsToNextBloomLightSwitch s)
        by (unfold getSleepLightStatus;
            destruct (_ <? _); [|destruct (_ <? _)]; repeat split);
      destruct (getSleepLightStatus cfg s) as [lit s']
  end.
  cbn [snd] in Hw. destruct Hw as (Ha & Hb' & Hc' & Hd).
  destruct lit; eexists; (split; [reflexivity|]);
    cbn [alarms bloomLightStatus bloomDayCounter
         secondsToNextBloomLightSwitch Alarm digitalWrite];
    rewrite Ha, Hb', Hc', Hd;
    cbn [alarms bloomLightStatus bloomDayCounter
         secondsToNextBloomLightSwitch set_bloom Alarm digitalWrite];
    rewrite (to_ulong_small (fst (bloomLightScheme cfg) * 60 - r)) by lia;
    (split; [lia|]); (split; [reflexivity|]); (split; [reflexivity|]);
    auto with datatypes.
Qed.

(** The shipped scheme four days and one hour after the bloom start. *)
Lemma setup_bloom_counts_twice_witness :
  exists st',
    setup_bloom (2 * Z.to_nat 4 + (2 + 0)) shipped
      (1451606400 + 4 * ((780 + 690) * 60) + 3600)
      (EEPROM_get (boot 1451606400))
    = Done st'
    /\ bloomDayCounter st' = 2 * 4
    /\ bloomLightStatus st' = false
    /\ secondsToNextBloomLightSwitch st' = 780 * 60 - 3600
    /\ In (timerOnce (780 * 60 - 3600) turnOffBloomLight_h) (alarms st').
Proof.
  apply (setup_bloom_counts_twice shipped 1451606400 4 3600 0
           (EEPROM_get (boot 1451606400)));
    cbn; first [reflexivity | lia].
Defined.

(** ** More on boot *)

(** The walk for a bloom start ahead of the clock. *)
Lemma getBloomLightStatus_future_eq (fuel : nat) (cfg : config)
    (timeNow : Z) (st : state) :
  0 <= timeNow < storedSettings_bloomStart st ->
  storedSettings_bloomStart st - timeNow < 2147483648 ->
  getBloomLightStatus (S fuel) cfg timeNow st
  = Done (set_bloom (bloomLightStatus st) (bloomDayCounter st)
            (storedSettings_bloomStart st - timeNow) st).
Proof.
  intros Hlt Hfar. unfold getBloomLightStatus.
  cbn [bloom_loop sumOfBloomLightPeriods].
  destruct (Z.leb_spec (storedSettings_bloomStart st) timeNow); [lia|].
  cbn [bind sumOfBloomLightPeriods status counter].
  rewrite to_ulong_small, to_long_small by lia. reflexivity.
Qed.

(** X10. With the bloom start ahead of the clock the walk of
    [getBloomLightStatus] makes no pass: status and day counter are kept and
    the time to the next switch is the time to the bloom start. *)
Theorem getBloomLightStatus_before_start (fuel : nat) (cfg : config)
    (timeNow : Z) (st : state) :
  0 <= timeNow < storedSettings_bloomStart st ->
  storedSettings_bloomStart st - timeNow < 2147483648 ->
  getBloomLightStatus (S fuel) cfg timeNow st
  = Done (set_bloom (bloomLightStatus st) (bloomDayCounter st)
            (storedSettings_bloomStart st - timeNow) st).
Proof. intros. apply getBloomLightStatus_future_eq; assumption. Qed.

Lemma getBloomLightStatus_before_start_witness :
  getBloomLightStatus 1 shipped 1500000000 (EEPROM_get (boot 1500086400))
  = Done (set_bloom false 0 86400 (EEPROM_get (boot 1500086400))).
Proof.
  apply (getBloomLightStatus_before_start 0 shipped 1500000000
           (EEPROM_get (boot 1500086400))); cbn; lia.
Defined.

(** X14. [setup] does set up the bloom scheme for a bloom start that lies
    ahead.  Its test [(timeNow - bloomStart) > 0] is made on [unsigned long]
    values and holds for every bloom start other than [timeNow]; from the
    boot status the bloom light is switched on at once, to be switched off
    when the bloom start comes, and no day is counted. *)
Theorem setup_bloom_before_start (fuel : nat) (cfg : config) (timeNow : Z)
    (st : state) :
  0 <= timeNow < storedSettings_bloomStart st ->
  storedSettings_bloomStart st - timeNow < 2147483648 ->
  bloomLightStatus st = false ->
  exists st',
    setup_bloom (S fuel) cfg timeNow st = Done st'
    /\ In (PIN_LIGHT_2, RELAYON) (writes st')
    /\ In (timerOnce (storedSettings_bloomStart st - timeNow)
             turnOffBloomLight_h) (alarms st')
    /\ bloomLightStatus st' = false
    /\ bloomDayCounter st' = bloomDayCounter st.
Proof.
  intros Hlt Hfar Hs. unfold setup_bloom.
  destruct (Z.ltb_spec 0 (storedSettings_bloomStart st)); [|lia].
  rewrite to_ulong_negative by lia.
  destruct (Z.ltb_spec 0 (timeNow - storedSettings_bloomStart st + 4294967296));
    [|lia].
  cbn [andb].
  rewrite getBloomLightStatus_future_eq by assumption.
  cbn [bind bloomLightStatus set_bloom]. rewrite Hs. cbn [negb].
  unfold turnOnBloomLight.
  rewrite getBloomLightStatus_future_eq by assumption.
  cbn [bind bloomLightStatus bloomDayCounter storedSettings_bloomStart
       set_bloom digitalWrite].
  rewrite ?Hs.
  match goal with
  | |- context [getSleepLightStatus cfg ?s] =>
      pose proof (getSleepLightStatus_store cfg s) as Hstore;
      assert (Hw : writes (snd (getSleepLightStatus cfg s)) = writes s
                   /\ alarms (snd (getSleepLightStatus cfg s)) = alarms s
                   /\ bloomLightStatus (snd (getSleepLightStatus cfg s))
                      = bloomLightStatus s
                   /\ bloomDayCounter (snd (getSleepLightStatus cfg s))
                      = bloomDayCounter s)
        by (unfold getSleepLightStatus;
            destruct (_ <? _); [|destruct (_ <? _)]; repeat split);
      destruct (getSleepLightStatus cfg s) as [on s']
  end.
  cbn [snd] in Hw. destruct Hw as (Hw & Ha & Hb & Hc).
  destruct on; eexists; (split; [reflexivity|]);
    cbn [writes alarms bloomLightStatus bloomDayCounter Alarm digitalWrite];
    rewrite Hw, Ha, Hb, Hc;
    cbn [writes alarms bloomLightStatus bloomDayCounter Alarm digitalWrite
         set_bloom secondsToNextBloomLightSwitch];
    rewrite (to_ulong_small (storedSettings_bloomStart st - timeNow)) by lia;
    cbn; auto 10.
Qed.

Lemma setup_bloom_before_start_witness :
  exists st',
    setup_bloom 1 shipped 1500000000 (EEPROM_get (boot 1500086400)) = Done st'
    /\ In (PIN_LIGHT_2, RELAYON) (writes st')
    /\ In (timerOnce (1500086400 - 1500000000) turnOffBloomLight_h)
         (alarms st')
    /\ bloomLightStatus st' = false
    /\ bloomDayCounter st' = bloomDayCounter (EEPROM_get (boot 1500086400)).
Proof.
  apply (setup_bloom_before_start 0 shipped 1500000000
           (EEPROM_get (boot 1500086400))); cbn; first [reflexivity | lia].
Defined.

(** X18. Whatever value the [B] command carries and whatever the clock says,
    [setBloomStart] keeps the stored bloom start well formed: the same in
    memory and in the EEPROM, and either 0 or a time from [MIN_TIME] on. *)
Theorem setBloomStart_store_ok (cfg : config) (timeNow serialTimeInput : Z)
    (st : state) :
  store_ok st -> store_ok (setBloomStart cfg timeNow serialTimeInput st).
Proof.
  intros [Heq Hrange]. unfold setBloomStart.
  pose proof (to_ulong_range serialTimeInput) as Hr.
  destruct (Z.leb_spec MIN_TIME (to_ulong serialTimeInput)).
  - destruct (_ <? _); split; cbn; auto. right. lia.
  - destruct (_ =? 0); [split; cbn; auto|split; assumption].
Qed.

Lemma setBloomStart_store_ok_witness :
  store_ok (setBloomStart shipped 1500000000 1499000000 (boot 0)).
Proof.
  apply (setBloomStart_store_ok shipped 1500000000 1499000000 (boot 0)).
  split; [reflexivity|left; reflexivity].
Defined.

(** X19. The older copies of the sketch handle every value but 0 as
    [PlantTimer.ino] does; on 0 they change nothing, so that a stored bloom
    start is not cleared by [B0;]. *)
Theorem setBloomStart_older_differs_at_zero (cfg : config)
    (timeNow serialTimeInput : Z) (st : state) :
  0 <= serialTimeInput < 4294967296 ->
  setBloomStart_older cfg timeNow serialTimeInput st
  = if serialTimeInput =? 0 then st
    else setBloomStart cfg timeNow serialTimeInput st.
Proof.
  intros Hr. unfold setBloomStart_older, setBloomStart.
  rewrite to_ulong_small by lia. unfold MIN_TIME.
  destruct (Z.eqb_spec serialTimeInput 0) as [->|Hnz]; [reflexivity|].
  destruct (1451606400 <=? serialTimeInput); reflexivity.
Qed.

Lemma setBloomStart_older_differs_at_zero_witness :
  setBloomStart_older shipped 1500000000 0 (EEPROM_get (boot 1490000000))
  = EEPROM_get (boot 1490000000).
Proof.
  apply (setBloomStart_older_differs_at_zero shipped 1500000000 0
           (EEPROM_get (boot 1490000000))).
  split; [discriminate|reflexivity].
Defined.

(** X20. A bloom start accepted by the [B] command survives a power cycle.
    After the command has stored a bloom start of less than [MAX_BLOOM_DAYS]
    elapsed days, a [setup] from the boot state with that EEPROM, at any
    time, ends with this bloom start in memory and in the EEPROM. *)
Theorem setBloomStart_then_setup (fuel : nat) (cfg : config)
    (timeNow timeInput later : Z) (st : state) :
  MIN_TIME <= timeInput <= timeNow ->
  timeNow < MIN_TIME + 32768 * SECS_PER_DAY ->
  (timeNow - timeInput) / SECS_PER_DAY < MAX_BLOOM_DAYS cfg ->
  match setup fuel cfg true later
          (boot (EEPROM_bloomStart (setBloomStart cfg timeNow timeInput st)))
  with
  | Done st' =>
      storedSettings_bloomStart st' = timeInput
      /\ EEPROM_bloomStart st' = timeInput
  | OutOfFuel | OutOfBounds _ => True
  end.
Proof.
  unfold MIN_TIME. change SECS_PER_DAY with 86400.
  intros Hin Hnow Hdays.
  assert (He : EEPROM_bloomStart (setBloomStart cfg timeNow timeInput st)
               = timeInput).
  { unfold setBloomStart. rewrite to_ulong_small by lia. unfold MIN_TIME.
    destruct (Z.leb_spec 1451606400 timeInput); [|lia].
    rewrite elapsedBloomDays_past by (change SECS_PER_DAY with 86400; lia).
    change SECS_PER_DAY with 86400.
    destruct (Z.ltb_spec ((timeNow - timeInput) / 86400) (MAX_BLOOM_DAYS cfg));
      [reflexivity|lia]. }
  rewrite He.
  destruct (setup fuel cfg true later (boot timeInput)) as [st'| |i] eqn:E.
  - apply setup_store in E. unfold store in E.
    injection E as -> ->. split; reflexivity.
  - exact I.
  - exact I.
Qed.

(** A bloom start of 2017-07-13 set on 2017-07-14, and a boot a week
    later. *)
Lemma setBloomStart_then_setup_witness :
  match setup 100 shipped true 1500604800
          (boot (EEPROM_bloomStart
                   (setBloomStart shipped 1500000000 1499913600 (boot 0))))
  with
  | Done st' =>
      storedSettings_bloomStart st' = 1499913600
      /\ EEPROM_bloomStart st' = 1499913600
  | OutOfFuel | OutOfBounds _ => True
  end.
Proof.
  apply (setBloomStart_then_setup 100 shipped 1500000000 1499913600
           1500604800 (boot 0));
    vm_compute;
    first [ reflexivity | discriminate
          | split; first [reflexivity | discriminate] ].
Defined.

(** ** The exhaust fan throttle on valid readings *)

Lemma to_int_signed (x : Z) : -32768 <= x < 32768 -> to_int x = x.
Proof.
  intros H. destruct (Z.lt_ge_cases x 0).
  - unfold to_int.
    assert (E : x mod 65536 = x + 65536).
    { replace x with (x + 65536 + (-1) * 65536) at 1 by lia.
      rewrite Z.mod_add by lia. apply Z.mod_small. lia. }
    rewrite E. destruct (Z.ltb_spec (x + 65536) 32768); lia.
  - apply to_int_small. lia.
Qed.

Lemma Qle_bool_inject_Z_mono (r : Q) (a b : Z) :
  a <= b -> Qle_bool r (inject_Z a) = true -> Qle_bool r (inject_Z b) = true.
Proof.
  intros Hab H. apply Qle_bool_iff. apply Qle_bool_iff in H.
  apply Qle_trans with (inject_Z a); [exact H|].
  rewrite <- Zle_Qle. exact Hab.
Qed.

(** X21. The throttle with hysteresis, for one reading [r] answered to both
    tests of a pass of [loop] and a hysteresis that is not negative.  At or
    below [minRoomTemp] the fan is throttled, above [minRoomTemp +
    exhaustFanHysteresis] it is not, in between the state is kept; the relay
    is written only when [fanThrottleActive] changes, and a second pass with
    the same reading changes nothing. *)
Theorem loop_fan_hysteresis (cfg : config) (r : Q) (st : state) :
  -32768 <= minRoomTemp cfg ->
  0 <= exhaustFanHysteresis cfg ->
  minRoomTemp cfg + exhaustFanHysteresis cfg < 32768 ->
  let st' := loop_fan cfg r r st in
  fanThrottleActive st'
  = (if Qle_bool r (inject_Z (minRoomTemp cfg)) then true
     else if Qle_bool r
               (inject_Z (minRoomTemp cfg + exhaustFanHysteresis cfg))
          then fanThrottleActive st
          else false)
  /\ (fanThrottleActive st' = fanThrottleActive st -> st' = st)
  /\ loop_fan cfg r r st' = st'.
Proof.
  intros Hmin Hhyst Hsum st'. subst st'. unfold loop_fan, Qgtb.
  rewrite to_int_signed by lia.
  pose proof (Qle_bool_inject_Z_mono r (minRoomTemp cfg)
                (minRoomTemp cfg + exhaustFanHysteresis cfg) ltac:(lia))
    as Hmono.
  destruct (Qle_bool r (inject_Z (minRoomTemp cfg))) eqn:Elow;
    destruct (Qle_bool r
                (inject_Z (minRoomTemp cfg + exhaustFanHysteresis cfg)))
      eqn:Ehigh;
    try (specialize (Hmono eq_refl); discriminate Hmono);
    destruct (fanThrottleActive st) eqn:Ef;
    cbn [negb andb fanThrottleActive set_fan digitalWrite];
    rewrite ?Ef; cbn [negb andb];
    repeat split; try reflexivity; try discriminate.
Qed.

(** The shipped thresholds at 24 degrees, in the dead band. *)
Lemma loop_fan_hysteresis_witness :
  let st' := loop_fan shipped (24 # 1)%Q (24 # 1)%Q (set_fan true (boot 0)) in
  fanThrottleActive st' = true
  /\ (fanThrottleActive st' = fanThrottleActive (set_fan true (boot 0))
      -> st' = set_fan true (boot 0))
  /\ loop_fan shipped (24 # 1)%Q (24 # 1)%Q st' = st'.
Proof.
  apply (loop_fan_hysteresis shipped (24 # 1)%Q (set_fan true (boot 0)));
    vm_compute; first [reflexivity | discriminate].
Defined.

(** ** Serial commands *)

Lemma remove_char_append (c : Ascii.ascii) (a b : String.string) :
  remove_char c (String.append a b)
  = String.append (remove_char c a) (remove_char c b).
Proof.
  induction a as [|x a IH]; cbn; [reflexivity|].
  destruct (Ascii.eqb x c); cbn; rewrite IH; reflexivity.
Qed.

Lemma append_empty_r (a : String.string) :
  String.append a String.EmptyString = a.
Proof. induction a as [|x a IH]; cbn; [|rewrite IH]; reflexivity. Qed.

Lemma append_assoc (a b c : String.string) :
  String.append (String.append a b) c = String.append a (String.append b c).
Proof. induction a as [|x a IH]; cbn; [|rewrite IH]; reflexivity. Qed.

(** [serialEvent] appends what it receives and never touches anything else;
    the command is complete once a [;] has come. *)
Lemma serialEvent_spec (received : String.string) (sk : sketch) :
  serialEvent received sk
  = {| globals := globals sk;
       clock := clock sk;
       RTC := RTC sk;
       serialInputString := String.append (serialInputString sk) received;
       serialStringComplete :=
         if has_char ";"%char received then true
         else serialStringComplete sk |}.
Proof.
  revert sk. induction received as [|c r IH]; intros sk.
  - cbn. rewrite append_empty_r. destruct sk; reflexivity.
  - cbn [serialEvent has_char]. rewrite IH.
    cbn [globals clock RTC serialInputString serialStringComplete].
    rewrite append_assoc. cbn [String.append].
    destruct (Ascii.eqb c ";"%char); [|reflexivity].
    destruct (has_char ";"%char r); reflexivity.
Qed.

(** X22. A command that arrives in pieces is put together.  While no [;] has
    come, a pass of [loop] leaves the input alone, and what [serialEvent]
    receives later is appended to it: the sketch ends in the same state as
    if all had arrived at once. *)
Theorem serial_command_in_pieces (toInt : String.string -> Z) (cfg : config)
    (first second : String.string) (sk : sketch) :
  serialStringComplete sk = false ->
  has_char ";"%char first = false ->
  serialEvent second (loop_serial toInt cfg (serialEvent first sk))
  = serialEvent (String.append first second) sk.
Proof.
  intros Hflag Hfirst.
  rewrite (serialEvent_spec first). unfold loop_serial.
  cbn [serialStringComplete]. rewrite Hfirst, Hflag.
  rewrite !serialEvent_spec.
  cbn [globals clock RTC serialInputString serialStringComplete].
  rewrite append_assoc. f_equal.
  assert (H : forall a b, has_char ";"%char a = false ->
            has_char ";"%char (String.append a b) = has_char ";"%char b).
  { induction a as [|x a IH]; intros b Ha; cbn in *; [reflexivity|].
    destruct (Ascii.eqb x ";"%char); [discriminate|]. apply IH. exact Ha. }
  rewrite H by exact Hfirst. rewrite Hflag. reflexivity.
Qed.

Lemma serial_command_in_pieces_witness :
  serialEvent "00000;"
    (loop_serial (fun _ => 0) shipped
       (serialEvent "B15000"
          {| globals := boot 0; clock := 1500000000; RTC := 1500000000;
             serialInputString := ""; serialStringComplete := false |}))
  = serialEvent "B1500000000;"
      {| globals := boot 0; clock := 1500000000; RTC := 1500000000;
         serialInputString := ""; serialStringComplete := false |}.
Proof.
  apply (serial_command_in_pieces (fun _ => 0) shipped "B15000" "00000;"
           {| globals := boot 0; clock := 1500000000; RTC := 1500000000;
              serialInputString := ""; serialStringComplete := false |});
    reflexivity.
Defined.

(** X23. Two commands that [serialEvent] receives before the next pass of
    [loop] are handled as one.  After [T...;B...;] the pass sees the header
    [T] only: the [B] command is not executed (the globals, and with them
    the stored bloom start, are unchanged), its text is read as part of the
    time, and the input is cleared. *)
Theorem serial_burst_T_then_B (toInt : String.string -> Z) (cfg : config)
    (time bloom : String.string) (sk : sketch) :
  serialInputString sk = String.EmptyString ->
  let received :=
    String.append "T"
      (String.append time (String.append ";B" (String.append bloom ";"))) in
  let sk' := loop_serial toInt cfg (serialEvent received sk) in
  globals sk' = globals sk
  /\ serialInputString sk' = String.EmptyString
  /\ serialStringComplete sk' = false
  /\ clock sk'
     = clock (setSerialTime
                (toInt (remove_char "T"%char
                          (remove_char ";"%char
                             (String.append time (String.append "B" bloom)))))
                sk).
Proof.
  intros Hbuf received sk'. subst sk' received.
  assert (Hinput :
    remove_char ";"%char
      (String.append "T"
         (String.append time (String.append ";B" (String.append bloom ";"))))
    = String.String "T"%char
        (remove_char ";"%char
           (String.append time (String.append "B" bloom)))).
  { cbn [String.append remove_char].
    change (Ascii.eqb "T"%char ";"%char) with false. cbv iota. f_equal.
    rewrite !remove_char_append. cbn [remove_char].
    change (Ascii.eqb ";"%char ";"%char) with true.
    change (Ascii.eqb "B"%char ";"%char) with false. cbv iota.
    rewrite remove_char_append. cbn [remove_char].
    change (Ascii.eqb ";"%char ";"%char) with true. cbv iota.
    rewrite append_empty_r. reflexivity. }
  assert (Hsemi : forall a b, has_char ";"%char
                    (String.append a (String.String ";"%char b)) = true).
  { induction a as [|x a IH]; intros b; cbn; [reflexivity|].
    destruct (Ascii.eqb x ";"%char); [reflexivity|apply IH]. }
  rewrite serialEvent_spec. rewrite Hbuf. unfold loop_serial.
  cbn [serialStringComplete serialInputString].
  change (String.append String.EmptyString ?x) with x.
  rewrite Hinput.
  assert (Hhas : has_char ";"%char
            (String.append "T"
               (String.append time
                  (String.append ";B" (String.append bloom ";")))) = true).
  { cbn [String.append has_char].
    change (Ascii.eqb "T"%char ";"%char) with false. cbv iota.
    apply Hsemi. }
  rewrite Hhas.
  cbn [startsWith remove_char].
  change (Ascii.eqb "T"%char "T"%char) with true. cbv iota.
  unfold setSerialTime.
  destruct (MIN_TIME <=? _); [repeat split|].
  destruct (_ =? 0); repeat split.
Qed.

Lemma serial_burst_T_then_B_witness :
  let sk := {| globals := boot 0; clock := 1500000000; RTC := 1500000000;
               serialInputString := ""; serialStringComplete := false |} in
  let sk' := loop_serial (fun _ => 0) shipped
               (serialEvent "T1500000100;B1500000000;" sk) in
  globals sk' = globals sk
  /\ serialInputString sk' = String.EmptyString
  /\ serialStringComplete sk' = false
  /\ clock sk'
     = clock (setSerialTime
                ((fun _ => 0)
                   (remove_char "T"%char
                      (remove_char ";"%char
                         (String.append "1500000100"
                            (String.append "B" "1500000000")))))
                sk).
Proof.
  apply (serial_burst_T_then_B (fun _ => 0) shipped "1500000100" "1500000000"
           {| globals := boot 0; clock := 1500000000; RTC := 1500000000;
              serialInputString := ""; serialStringComplete := false |}).
  reflexivity.
Defined.

(** X5. [getGrowthLightPeriod] of [PlantTimer.ino] returns for every scheme of
    strictly positive periods and every start time of day: with enough fuel
    the walk ends on a period of the scheme, with a strictly positive number
    of seconds to its end. *)
Theorem getGrowthLightPeriod_PlantTimer_ino_returns (cfg : config)
    (timeNow : Z) (st : state) :
  growthLightScheme cfg <> [] ->
  Forall (fun p => 0 < p < 32768) (growthLightScheme cfg) ->
  0 <= growthLightStartTimeHour cfg < 24 ->
  0 <= growthLightStartTimeMinute cfg < 60 ->
  86400 <= timeNow -> timeNow + 32767 * 60 < 4294967296 ->
  exists fuel st',
    getGrowthLightPeriod PlantTimer_ino fuel cfg timeNow st = Done st'
    /\ 0 < secondsToNextGrowthLightSwitch st'
    /\ 0 <= currentGrowthLightPeriod st' < GROWTH_LIGHT_PERIODS cfg.
Proof. intros. apply getGrowthLightPeriod_terminates; assumption. Qed.

(** The shipped scheme on 2017-07-14. *)
Lemma getGrowthLightPeriod_PlantTimer_ino_returns_witness :
  exists fuel st',
    getGrowthLightPeriod PlantTimer_ino fuel shipped 1500000000 (boot 0)
    = Done st'
    /\ 0 < secondsToNextGrowthLightSwitch st'
    /\ 0 <= currentGrowthLightPeriod st' < GROWTH_LIGHT_PERIODS shipped.
Proof.
  apply (getGrowthLightPeriod_PlantTimer_ino_returns shipped 1500000000
           (boot 0)).
  - discriminate.
  - repeat constructor.
  - cbn; lia.
  - cbn; lia.
  - lia.
  - lia.
Defined.

(** X6. In every copy of the sketch [getGrowthLightPeriod] is idempotent: it
    starts from its own locals and overwrites the two globals it sets, so
    calling it again at the same time on the state it left changes
    nothing. *)
Theorem getGrowthLightPeriod_idempotent (v : source_variant) (fuel : nat)
    (cfg : config) (timeNow : Z) (st : state) :
  match getGrowthLightPeriod v fuel cfg timeNow st with
  | Done st' => getGrowthLightPeriod v fuel cfg timeNow st' = Done st'
  | OutOfFuel | OutOfBounds _ => True
  end.
Proof.
  destruct (getGrowthLightPeriod v fuel cfg timeNow st) as [st'| |] eqn:E;
    [|exact I|exact I].
  exact (getGrowthLightPeriod_twice v fuel cfg timeNow st st' E).
Qed.

(** X11. The bloom walk takes its starting phase from the global the previous
    call left: entered with [bloomLightStatus] true, a query [N] whole bloom
    days after the bloom start reports the dark period, with the length of
    the dark period to go, where the boot state gets the lit one. *)
Theorem getBloomLightStatus_starts_from_left_status (cfg : config)
    (bloomStart N : Z) (st : state) :
  0 < fst (bloomLightScheme cfg) < 32768 ->
  0 < snd (bloomLightScheme cfg) < 32768 ->
  0 <= N < startOfDaytimeReduction cfg ->
  startOfDaytimeReduction cfg < 256 ->
  0 <= bloomStart ->
  bloomStart
    + (N + 1) * ((fst (bloomLightScheme cfg) + snd (bloomLightScheme cfg)) * 60)
    < 4294967296 ->
  storedSettings_bloomStart st = bloomStart ->
  bloomLightStatus st = true ->
  bloomDayCounter st = 0 ->
  exists fuel,
    getBloomLightStatus fuel cfg
      (bloomStart
       + N * ((fst (bloomLightScheme cfg) + snd (bloomLightScheme cfg)) * 60))
      st
    = Done (set_bloom true N (snd (bloomLightScheme cfg) * 60) st).
Proof. intros. apply bloomDayCounter_counts_full_days_dark; assumption. Qed.

(** Five bloom days of the shipped scheme after 2016-01-01, entered with the
    status set. *)
Lemma getBloomLightStatus_starts_from_left_status_witness :
  exists fuel,
    getBloomLightStatus fuel shipped (1451606400 + 5 * ((780 + 690) * 60))
      (set_bloom true 0 0 (EEPROM_get (boot 1451606400)))
    = Done (set_bloom true 5 (690 * 60)
              (set_bloom true 0 0 (EEPROM_get (boot 1451606400)))).
Proof.
  apply (getBloomLightStatus_starts_from_left_status shipped 1451606400 5
           (set_bloom true 0 0 (EEPROM_get (boot 1451606400))));
    cbn; first [reflexivity | lia].
Defined.

(** X13. [setup] reads the bloom start from the EEPROM and never writes it
    back or clears it: whenever it returns, the copy in RAM and the EEPROM
    both hold the value the EEPROM held before, whatever the clock says. *)
Theorem setup_keeps_EEPROM_bloomStart (fuel : nat) (cfg : config)
    (timeNow : Z) (st : state) :
  match setup fuel cfg true timeNow st with
  | Done st' => store st' = (EEPROM_bloomStart st, EEPROM_bloomStart st)
  | OutOfFuel | OutOfBounds _ => True
  end.
Proof.
  destruct (setup fuel cfg true timeNow st) as [st'| |] eqn:E;
    [|exact I|exact I].
  exact (setup_store fuel cfg timeNow st st' E).
Qed.

(** [getSleepLightStatus] only sets [secondsToNextSleepLightSwitch]. *)
Lemma getSleepLightStatus_sets (cfg : config) (st : state) :
  snd (getSleepLightStatus cfg st)
  = set_sleep (secondsToNextSleepLightSwitch (snd (getSleepLightStatus cfg st)))
      st.
Proof.
  unfold getSleepLightStatus.
  destruct (_ <? _); [|destruct (_ <? _)]; reflexivity.
Qed.

(** Its answer and the delay it stores are read off the two bloom globals
    alone. *)
Lemma getSleepLightStatus_reads (cfg : config) (st st' : state) :
  secondsToNextBloomLightSwitch st = secondsToNextBloomLightSwitch st' ->
  bloomLightStatus st = bloomLightStatus st' ->
  fst (getSleepLightStatus cfg st) = fst (getSleepLightStatus cfg st')
  /\ secondsToNextSleepLightSwitch (snd (getSleepLightStatus cfg st))
     = secondsToNextSleepLightSwitch (snd (getSleepLightStatus cfg st')).
Proof.
  intros E1 E2. unfold getSleepLightStatus. rewrite E1, E2.
  destruct (_ <? _); [|destruct (_ <? _)]; split; reflexivity.
Qed.

(** X24. The far-red handlers do not recompute the bloom status: whatever time
    passes between them, [turnOffSleepLight] run after [turnOnSleepLight]
    stores the very delay that [turnOnSleepLight] stored and arms the alarm
    that it armed, as long as no bloom handler ran in between.  The alarm
    gets the stored [long] as an [unsigned long], 2^32 more than the delay
    when that is negative.  The relay ends switched off. *)
Theorem sleep_handlers_rearm_same_delay (cfg : config) (st : state) :
  let s1 := turnOnSleepLight cfg st in
  let s2 := turnOffSleepLight cfg s1 in
  secondsToNextSleepLightSwitch s2 = secondsToNextSleepLightSwitch s1
  /\ alarms s2
     = timerOnce (to_ulong (secondsToNextSleepLightSwitch s1))
         turnOnSleepLight_h
       :: timerOnce (to_ulong (secondsToNextSleepLightSwitch s1))
            turnOffSleepLight_h
       :: alarms st
  /\ pin_level PIN_LIGHT_3 (writes s2) = Some RELAYOFF.
Proof.
  cbv zeta. unfold turnOffSleepLight, turnOnSleepLight.
  set (a := digitalWrite PIN_LIGHT_3 RELAYON st).
  set (s1 := snd (getSleepLightStatus cfg a)).
  set (b := digitalWrite PIN_LIGHT_3 RELAYOFF
              (Alarm (timerOnce (to_ulong (secondsToNextSleepLightSwitch s1))
                        turnOffSleepLight_h) s1)).
  set (s2 := snd (getSleepLightStatus cfg b)).
  assert (H1 : s1 = set_sleep (secondsToNextSleepLightSwitch s1) a)
    by apply getSleepLightStatus_sets.
  assert (H2 : s2 = set_sleep (secondsToNextSleepLightSwitch s2) b)
    by apply getSleepLightStatus_sets.
  assert (Hd : secondsToNextSleepLightSwitch s2
               = secondsToNextSleepLightSwitch s1).
  { destruct (getSleepLightStatus_reads cfg b a) as [_ H].
    - subst b. cbn [digitalWrite Alarm secondsToNextBloomLightSwitch].
      rewrite H1. reflexivity.
    - subst b. cbn [digitalWrite Alarm bloomLightStatus].
      rewrite H1. reflexivity.
    - exact H. }
  cbn [Alarm secondsToNextSleepLightSwitch alarms].
  split; [exact Hd|]. split.
  - rewrite Hd. f_equal. rewrite H2. cbn [set_sleep alarms].
    subst b. cbn [digitalWrite Alarm alarms]. f_equal.
    rewrite H1. reflexivity.
  - rewrite H2. subst b. reflexivity.
Qed.
